(** * Voltz v1-sbf: the historic rate feed and the naive portfolio

    A shallow embedding of [data.py] (class [HistoricCSVDataHandler]), and
    the interface of the portfolio with the scenarios that
    [test_portfolio.py] asserts of it ([portfolio.py] is not among the
    sources), together with the properties of the backtester's
    specification that concern them.

    Conventions.
    - A timestamp is an integer number of clock units ([Z]); a pandas
      frequency ('H', 'D') is the number of units of one period, a
      [positive], and so is the length of the day ([Calendar]).
    - A float64 cell of a frame is [option V]: [None] is NaN, [Some v] any
      other float.  The feed never computes with the values it streams apart
      from the resampling mean and the linear interpolation, which are kept
      abstract ([Float64Ops]); every statement about the feed therefore holds
      for any arithmetic on [V].
    - Python exceptions are the [Raised] results of a small error monad. *)

From Stdlib Require Import ZArith List Lia Sorted QArith Qcanon.
From stdpp Require Import gmap strings list fin_maps numbers sorting.

Local Open Scope Z_scope.

(** ** Python results *)

Module py.

Inductive exn : Set :=
| KeyError | AttributeError | TypeError | IndexError | FileNotFoundError
| StopIteration.

Inductive result (A : Type) : Type :=
| Returned (a : A)
| Raised (e : exn).
Arguments Returned {A} a.
Arguments Raised {A} e.

#[export] Instance result_ret : MRet result := λ A a, Returned a.
#[export] Instance result_bind : MBind result := λ A B k m,
  match m with
  | Returned a => k a
  | Raised e => Raised e
  end.

(** [for x in xs: body], the loop state threaded through, an exception
    leaving the loop at once. *)
Fixpoint for_each {A S : Type} (body : S → A → result S) (xs : list A) (s : S)
  : result S :=
  match xs with
  | [] => Returned s
  | x :: xs' => s' ← body s x; for_each body xs' s'
  end.

(** The slice [l[start:]]: a negative [start] counts from the end, and both
    ends are clipped to the list. *)
Definition slice_from {A : Type} (start : Z) (l : list A) : list A :=
  let n := Z.of_nat (length l) in
  let lo := if bool_decide (start < 0) then Z.max 0 (n + start) else Z.min start n in
  drop (Z.to_nat lo) l.

End py.

Export py.

(** ** pandas frames with a datetime index and one float column *)

(** The numerical kernels of pandas that the cleaning pipeline calls on the
    liquidityIndex column.  Their results are floating-point numbers; only
    their shape matters to the feed. *)
Class Float64Ops (V : Type) := {
  float_eq_dec :: EqDecision V;
  (** mean of the non-NaN values of one resampling bin, NaN for none *)
  bin_mean : list V → option V;
  (** [Series.interpolate(method='linear')] on a column *)
  interpolate_linear : list (option V) → list (option V);
}.

(** The clock: the number of clock units in one day.  pandas anchors the
    bins of [resample] on the midnight before the first label. *)
Class Calendar := { day : positive }.

(** One row of a frame: the index label and the liquidityIndex cell; a
    frame is the list of its rows. *)
Abbreviation Row V := (Z * option V)%type.
Abbreviation DataFrame V := (list (Z * option V)).

Module pandas.
Section frames.
Context {V : Type} `{!Float64Ops V} `{!Calendar}.

Definition index (df : DataFrame V) : list Z := df.*1.
Definition column (df : DataFrame V) : list (option V) := df.*2.

(** [pd.date_range(start, stop, freq)] for [start <= stop] on the grid. *)
Definition date_range (start stop freq : Z) : list Z :=
  (λ k : nat, start + Z.of_nat k * freq) <$> seq 0 (Z.to_nat ((stop - start) / freq + 1)).

(** The labels of [df.resample(freq)] on a datetime index (bins closed and
    labelled on the left, [origin='start_day']): the bins are counted from
    the midnight before the earliest label, and the labels run from the bin
    of the earliest label to the bin of the latest one. *)
Definition resample_index (freq : Z) (idx : list Z) : list Z :=
  match idx with
  | [] => []
  | t :: ts =>
      let lo := foldr Z.min t ts in
      let hi := foldr Z.max t ts in
      let origin := lo / Z.pos day * Z.pos day in
      date_range (origin + (lo - origin) / freq * freq)
                 (origin + (hi - origin) / freq * freq) freq
  end.

(** The cell that [method='pad'] gives label [t]: the one of the last row
    labelled at or before [t] (NaN when there is none).  pandas defines it
    for a monotonic index, which every frame of the pipeline has. *)
Definition pad_lookup (df : DataFrame V) (t : Z) : option V :=
  fold_left (λ acc (r : Row V), if bool_decide (r.1 ≤ t) then r.2 else acc) df None.

(** [df.reindex(index=idx, method='pad')] *)
Definition reindex_pad (df : DataFrame V) (idx : list Z) : DataFrame V :=
  (λ t, (t, pad_lookup df t)) <$> idx.

(** [df.resample(freq).ffill()]: the frame reindexed on the labels of the
    bins, padding forward.  (When the index already has the frequency
    [freq], pandas puts the new labels on the rows as they are instead; on
    a frame whose labels are those of the bins, as [resample(freq).mean()]
    leaves them, that is the same frame.) *)
Definition resample_ffill (freq : Z) (df : DataFrame V) : DataFrame V :=
  reindex_pad df (resample_index freq (index df)).

(** [df.resample(freq).mean()] *)
Definition resample_mean (freq : Z) (df : DataFrame V) : DataFrame V :=
  (λ g, (g, bin_mean (omap snd (filter (λ r : Row V, g ≤ r.1 < g + freq) df))))
    <$> resample_index freq (index df).

(** [df.interpolate(method='linear')] *)
Definition interpolate (df : DataFrame V) : DataFrame V :=
  zip (index df) (interpolate_linear (column df)).

(** [df.dropna()] *)
Definition dropna (df : DataFrame V) : DataFrame V :=
  filter (λ r : Row V, is_Some r.2) df.

(** [df[df.index.to_series().between(lo, hi)]] *)
Definition between (lo hi : Z) (df : DataFrame V) : DataFrame V :=
  filter (λ r : Row V, lo ≤ r.1 ≤ hi) df.

(** [Index.union]: the sorted labels of both indices, each once. *)
Definition index_union (a b : list Z) : list Z :=
  merge_sort Z.le (remove_dups (a ++ b)).

(** [col == col.shift(1)], negated: NaN compares unequal to everything. *)
Fixpoint is_not_flat (prev : option V) (col : list (option V)) : list bool :=
  match col with
  | [] => []
  | c :: rest => negb (bool_decide (is_Some c ∧ c = prev)) :: is_not_flat c rest
  end.

End frames.
End pandas.

(** ** event.py: the messages of the Event Channel *)

Inductive Direction : Set := LONG | SHORT | EXIT.

Record FillEvent : Type := mkFillEvent {
  fill_token : string;
  fill_fee : Qc;
  fill_timestamp : Z;
  fill_notional : Qc;
  fill_direction : Direction;
}.

Inductive Event : Type :=
| MarketEvent
| SignalEvent (token : string) (direction : Direction) (timestamp : Z)
| OrderEvent (token : string) (timestamp : Z) (notional : Qc) (direction : Direction)
| Fill (fill : FillEvent).

(** ** data.py: HistoricCSVDataHandler *)

Module data.
Section handler.
Context {V : Type} `{!Float64Ops V} `{!Calendar}.


(** A revealed observation, the tuple [(token, datetime, liquidityIndex)]. *)
Definition Rate : Type := string * Z * option V.
Definition rate_timestamp (r : Rate) : Z := r.1.2.

(** What [self.token_data[t]] holds: the frame while the files are being
    converted, then the [iterrows()] iterator over the reindexed frame.  The
    iterator is one shared object: it is represented by the rows it has not
    produced yet, and whoever advances it advances it for everyone. *)
Inductive TokenData : Type :=
| Frame (df : DataFrame V)
| Iterrows (remaining : list (Row V)).

Record HistoricCSVDataHandler : Type := mkHandler {
  events : list Event;  (* queue.Queue: put at the back, get from the front *)
  token_list : list string;
  token_data : gmap string TokenData;
  latest_token_data : gmap string (list Rate);
  continue_backtest : bool;
  start_date_time : option Z;
  end_date_time : option Z;
  interpolation_frequency : positive;
  backtest_frequency : positive;
}.

Definition set_events (f : list Event → list Event) (h : HistoricCSVDataHandler) :=
  mkHandler (f (events h)) (token_list h) (token_data h) (latest_token_data h)
    (continue_backtest h) (start_date_time h) (end_date_time h)
    (interpolation_frequency h) (backtest_frequency h).

Definition set_token_data (f : gmap string TokenData → gmap string TokenData)
    (h : HistoricCSVDataHandler) :=
  mkHandler (events h) (token_list h) (f (token_data h)) (latest_token_data h)
    (continue_backtest h) (start_date_time h) (end_date_time h)
    (interpolation_frequency h) (backtest_frequency h).

Definition set_latest_token_data
    (f : gmap string (list Rate) → gmap string (list Rate))
    (h : HistoricCSVDataHandler) :=
  mkHandler (events h) (token_list h) (token_data h) (f (latest_token_data h))
    (continue_backtest h) (start_date_time h) (end_date_time h)
    (interpolation_frequency h) (backtest_frequency h).

Definition set_continue_backtest (b : bool) (h : HistoricCSVDataHandler) :=
  mkHandler (events h) (token_list h) (token_data h) (latest_token_data h)
    b (start_date_time h) (end_date_time h)
    (interpolation_frequency h) (backtest_frequency h).

(** [next(self._get_new_rate(token))].  The generator is created afresh by
    every call and abandoned after its first item, but its loop draws from
    the shared iterator in [self.token_data[token]]: each call consumes one
    more row, and an exhausted iterator ends the generator at once, so that
    [next] raises StopIteration.  Iterating over a frame instead of over its
    rows yields column names, and indexing one with a string is a TypeError. *)
Definition next__get_new_rate (h : HistoricCSVDataHandler) (token : string)
  : result (HistoricCSVDataHandler * Rate) :=
  match token_data h !! token with
  | None => Raised KeyError
  | Some (Frame _) => Raised TypeError
  | Some (Iterrows []) => Raised StopIteration
  | Some (Iterrows (b :: rest)) =>
      Returned (set_token_data <[token := Iterrows rest]> h, (token, b.1, b.2))
  end.

(** The body of the loop of [update_rates] for one token [t].  The rate is
    a tuple, never [None], so the guard before [append] always passes. *)
Definition update_rates_body (h : HistoricCSVDataHandler) (t : string)
  : result HistoricCSVDataHandler :=
  match next__get_new_rate h t with
  | Raised StopIteration => Returned (set_continue_backtest false h)
  | Raised e => Raised e
  | Returned (h', rate) =>
      match latest_token_data h' !! t with
      | None => Raised KeyError
      | Some rates => Returned (set_latest_token_data <[t := rates ++ [rate]]> h')
      end
  end.

Definition update_rates (h : HistoricCSVDataHandler) : result HistoricCSVDataHandler :=
  h' ← for_each update_rates_body (token_list h) h;
  Returned (set_events (λ q, q ++ [MarketEvent]) h').

(** [n] successive calls of [update_rates]. *)
Fixpoint update_rates_times (n : nat) (h : HistoricCSVDataHandler)
  : result HistoricCSVDataHandler :=
  match n with
  | O => Returned h
  | S n' => h' ← update_rates h; update_rates_times n' h'
  end.

(** [get_latest_rates(token, N)]: what it prints, and its result, where the
    Python value [None] of a function that falls off its end is [None]. *)
Definition not_available : string :=
  "That token is not available in the historical data set.".

Definition get_latest_rates (h : HistoricCSVDataHandler) (token : string) (N : Z)
  : list string * result (option (list Rate)) :=
  match latest_token_data h !! token with
  | None => ([not_available], Returned None)
  | Some rates_list => ([], Returned (Some (slice_from (- N) rates_list)))
  end.

(** [read_csv] gives a file with observations a datetime index, and a file
    with a header and no observation an empty index of strings, on which
    [resample] raises TypeError. *)
Definition _interpolate_liquidity_index (h : HistoricCSVDataHandler) (df : DataFrame V)
  : result (DataFrame V) :=
  match df with
  | [] => Raised TypeError
  | _ :: _ =>
      let df := pandas.resample_mean (Z.pos (interpolation_frequency h)) df in
      let df := pandas.interpolate df in
      Returned df
  end.

Definition _removeFlatRegions (df : DataFrame V) : DataFrame V :=
  let isNotFlat := pandas.is_not_flat None (pandas.column df) in
  (filter (λ rb : (Row V) * bool, rb.2 = true) (zip df isNotFlat)).*1.

Definition _adjust_liquidity_index_frequency (h : HistoricCSVDataHandler) (df : DataFrame V)
  : DataFrame V :=
  let df := pandas.resample_ffill (Z.pos (backtest_frequency h)) df in
  let df := pandas.dropna df in
  df.

(** The steps of [_open_convert_csv_files] on one token's frame, from the
    parsed file to the frame stored before the reindexing.  The index is kept
    on a naive clock throughout, so [tz_localize(None)] leaves it as it is. *)
Definition convert (is_liquid_staking : bool) (h : HistoricCSVDataHandler)
    (df : DataFrame V) : result (DataFrame V) :=
  let df := if is_liquid_staking then _removeFlatRegions df else df in
  df ← _interpolate_liquidity_index h df;
  let df := _adjust_liquidity_index_frequency h df in
  let df :=
    match start_date_time h, end_date_time h with
    | Some lo, Some hi => pandas.between lo hi df
    | _, _ => df
    end in
  Returned df.

(** [pd.read_csv(os.path.join(csv_dir, '%s.csv' % t), ...)]: [files] maps a
    token to the parsed contents of its file in [csv_dir]. *)
Definition read_csv (files : gmap string (DataFrame V)) (t : string) : result (DataFrame V) :=
  match files !! t with
  | Some df => Returned df
  | None => Raised FileNotFoundError
  end.

(** The body of the first loop of [_open_convert_csv_files]; the loop state
    is the handler and [comb_index].  [Index.union] builds a new index and
    the source drops it: [comb_index] stays the first token's index. *)
Definition open_convert_body (files : gmap string (DataFrame V)) (is_liquid_staking : bool)
    (st : HistoricCSVDataHandler * option (list Z)) (t : string)
  : result (HistoricCSVDataHandler * option (list Z)) :=
  let '(h, comb_index) := st in
  df ← read_csv files t;
  df ← convert is_liquid_staking h df;
  let h := set_token_data <[t := Frame df]> h in
  let comb_index :=
    match comb_index with
    | None => pandas.index df
    | Some c => let _ := pandas.index_union c (pandas.index df) in c
    end in
  let h := set_latest_token_data <[t := []]> h in
  Returned (h, Some comb_index).

(** The body of the second loop: a frame is reindexed and replaced by the
    iterator over its rows; a token met a second time holds that iterator,
    which has no [reindex]. *)
Definition reindex_body (comb_index : list Z) (h : HistoricCSVDataHandler) (s : string)
  : result HistoricCSVDataHandler :=
  match token_data h !! s with
  | None => Raised KeyError
  | Some (Frame df) =>
      Returned (set_token_data <[s := Iterrows (pandas.reindex_pad df comb_index)]> h)
  | Some (Iterrows _) => Raised AttributeError
  end.

Definition _open_convert_csv_files (files : gmap string (DataFrame V))
    (is_liquid_staking : bool) (h : HistoricCSVDataHandler)
  : result HistoricCSVDataHandler :=
  '(h, comb_index) ← for_each (open_convert_body files is_liquid_staking)
                       (token_list h) (h, None);
  match comb_index with
  | None => Returned h  (* no token: the second loop has nothing to do *)
  | Some c => for_each (reindex_body c) (token_list h) h
  end.

(** [HistoricCSVDataHandler(events, csv_dir, token_list, ...)] *)
Definition __init__ (events : list Event) (files : gmap string (DataFrame V))
    (token_list : list string) (start_date_time end_date_time : option Z)
    (interpolation_frequency backtest_frequency : positive) (is_liquid_staking : bool)
  : result HistoricCSVDataHandler :=
  _open_convert_csv_files files is_liquid_staking
    (mkHandler events token_list ∅ ∅ true start_date_time end_date_time
       interpolation_frequency backtest_frequency).

(** *** Notions used to state the properties of the feed *)

(** [t] is tracked: the feed holds its row iterator and its revealed
    history, as it does for every token of [token_list] once built. *)
Definition tracked (h : HistoricCSVDataHandler) (t : string) : Prop :=
  (∃ rows, token_data h !! t = Some (Iterrows rows)) ∧
  is_Some (latest_token_data h !! t).

Definition ready (h : HistoricCSVDataHandler) : Prop :=
  Forall (tracked h) (token_list h).

(** The last [n] elements of a list, all of it when it is shorter. *)
Definition last_n {A : Type} (n : nat) (l : list A) : list A :=
  reverse (take n (reverse l)).

Definition strictly_increasing (ts : list Z) : Prop := StronglySorted Z.lt ts.

(** Every revealed history, followed by the rows still to come for its
    token, is in strictly increasing order of time. *)
Definition in_time_order (h : HistoricCSVDataHandler) : Prop :=
  ∀ t rates, latest_token_data h !! t = Some rates →
    ∃ rows, token_data h !! t = Some (Iterrows rows) ∧
      strictly_increasing ((rate_timestamp <$> rates) ++ pandas.index rows).

(** A call that reveals no observation leaves every history as it was. *)
Definition reveals_nothing (h h' : HistoricCSVDataHandler) : Prop :=
  latest_token_data h' = latest_token_data h.

(** *** Notions used to describe the feed that a construction returns *)

(** The tuple that [update_rates] appends for row [b] of token [t]. *)
Definition rate_of (t : string) (b : Row V) : Rate := (t, b.1, b.2).

(** The handler as [__init__] has set its fields, before it opens the files. *)
Definition blank (events : list Event) (token_list : list string)
    (start_date_time end_date_time : option Z)
    (interpolation_frequency backtest_frequency : positive)
  : HistoricCSVDataHandler :=
  mkHandler events token_list ∅ ∅ true start_date_time end_date_time
    interpolation_frequency backtest_frequency.

(** Two handlers with the same bounds and frequencies. *)
Definition same_config (h h' : HistoricCSVDataHandler) : Prop :=
  start_date_time h' = start_date_time h ∧ end_date_time h' = end_date_time h ∧
  interpolation_frequency h' = interpolation_frequency h ∧
  backtest_frequency h' = backtest_frequency h.

(** The value of [comb_index] when the first loop of
    [_open_convert_csv_files] is over: the index of the first token's
    converted frame (no index at all for an empty token list). *)
Definition first_index (files : gmap string (DataFrame V)) (is_liquid_staking : bool)
    (h : HistoricCSVDataHandler) : list Z :=
  match token_list h with
  | [] => []
  | t0 :: _ =>
      match read_csv files t0 ≫= convert is_liquid_staking h with
      | Returned frame => pandas.index frame
      | Raised _ => []
      end
  end.

(** A file with at least one observation. *)
Definition has_observations (files : gmap string (DataFrame V)) (t : string) : Prop :=
  ∃ df, files !! t = Some df ∧ df ≠ [].

(** A column without a flat step: no cell repeats the float before it. *)
Definition no_flat (col : list (option V)) : Prop :=
  ∀ (i : nat) (x : V), col !! i = Some (Some x) → col !! S i ≠ Some (Some x).

End handler.
End data.

(** ** The portfolio

    [portfolio.py] is not among the sources.  What the sources show of
    [NaivePortfolio] is the calls that [test_portfolio.py] makes and the
    values that it asserts; the specification lists them as Scenarios A, C
    and D.  Amounts (cash, fees, notionals, values) are exact rationals. *)

Module portfolio.

(** A holdings dictionary: 'datetime', 'cash', 'fee', 'total' and one entry
    per token. *)
Record Holdings : Type := mkHoldings {
  datetime : option Z;
  cash : Qc;
  fee : Qc;
  total : Qc;
  token_value : list (string * Qc);
}.

(** A row of the equity curve: the columns of a holdings dictionary, and
    'returns' and 'equity_curve'. *)
Record EquityCurveRow : Type := mkRow {
  row_holdings : Holdings;
  returns : option Qc;
  equity_curve_value : option Qc;
}.

Definition amount (z : Z) : Qc := Q2Qc (inject_Z z).

Definition sum_values (vs : list (string * Qc)) : Qc := foldr Qcplus 0%Qc (vs.*2).



Section interface.
Context {V : Type} `{!Float64Ops V} `{!Calendar}.

Abbreviation Handler := (data.HistoricCSVDataHandler (V:=V)).

(** Modelled from the spec: the operations of [NaivePortfolio] (file
    portfolio.py is missing), with the names and arguments that
    [test_portfolio.py] calls them with, and the three fields that it reads.
    [P] is the state of a portfolio.  A portfolio keeps the rate feed that it
    was constructed with, an object it shares with its caller: the state of
    the feed at the time of a call is an argument of the call.  Nothing is
    said of what the operations compute. *)
Class Portfolio (P : Type) := {
  __init__ : Handler → Z → Qc → P;
  update_holdings_from_fill : Handler → FillEvent → P → P;
  update_fill : Handler → Event → P → P;
  update_timeindex : Handler → Event → P → P;
  create_equity_curve_dataframe : P → P;
  current_holdings : P → Holdings;
  all_holdings : P → list Holdings;
  equity_curve : P → list EquityCurveRow;
}.

Section scenarios.
Context {P : Type} `{!Portfolio P}.
(** The feed after [n] calls of [update_rates], and the start date. *)
Context (rates : nat → Handler) (start_date : Z).











End scenarios.

(** *** A portfolio that meets the scenarios

    It shows that Scenarios A, C and D can be met together, and no more:
    a fill's fee is charged to cash and to the total, a token is worth the
    notional of its newest fill (10000, the notional of the naive order,
    before any fill), and a snapshot totals cash and values. *)

(** Modelled from the spec: the state of one portfolio that meets Scenarios
    A, C and D (file portfolio.py is missing).  It stands for no more than
    that the three scenarios can be met together. *)
Record Reference : Type := mkReference {
  ref_tokens : list string;
  ref_fills : list FillEvent;  (* newest first *)
  ref_current : Holdings;
  ref_all : list Holdings;
  ref_curve : list EquityCurveRow;
}.

Definition ref_value (fills : list FillEvent) (s : string) : Qc :=
  match filter (λ f, fill_token f = s) fills with
  | f :: _ => fill_notional f
  | [] => amount 10000
  end.

(** The timestamp of the latest observation revealed for the first token. *)
Definition ref_bar (rates : Handler) (tokens : list string) : option Z :=
  s ← head tokens;
  match (data.get_latest_rates rates s 1).2 with
  | Returned (Some l) => data.rate_timestamp <$> last l
  | _ => None
  end.

(** [Series.pct_change()] and [Series.cumprod()], which skips NaN. *)
Fixpoint pct_change (prev : option Qc) (totals : list Qc) : list (option Qc) :=
  match totals with
  | [] => []
  | x :: rest => ((λ y, x / y - 1)%Qc <$> prev) :: pct_change (Some x) rest
  end.

Fixpoint cumprod (acc : Qc) (xs : list (option Qc)) : list (option Qc) :=
  match xs with
  | [] => []
  | None :: rest => None :: cumprod acc rest
  | Some x :: rest => Some (acc * x)%Qc :: cumprod (acc * x)%Qc rest
  end.

Definition equity_rows (snapshots : list Holdings) : list EquityCurveRow :=
  let rets := pct_change None (total <$> snapshots) in
  let curve := cumprod 1%Qc ((λ r : option Qc, (λ x, 1 + x)%Qc <$> r) <$> rets) in
  (λ '(hd, (r, c)), mkRow hd r c) <$> zip snapshots (zip rets curve).

Definition ref_pay (fill : FillEvent) (p : Reference) : Reference :=
  let ch := ref_current p in
  mkReference (ref_tokens p) (ref_fills p)
    (mkHoldings (datetime ch) (cash ch - fill_fee fill)%Qc (fee ch + fill_fee fill)%Qc
       (total ch - fill_fee fill)%Qc (token_value ch))
    (ref_all p) (ref_curve p).

Definition ref_record (fill : FillEvent) (p : Reference) : Reference :=
  mkReference (ref_tokens p) (fill :: ref_fills p) (ref_current p) (ref_all p)
    (ref_curve p).

Definition ref_snapshot (rates : Handler) (p : Reference) : Reference :=
  let ch := ref_current p in
  let values := (λ s, (s, ref_value (ref_fills p) s)) <$> ref_tokens p in
  mkReference (ref_tokens p) (ref_fills p) ch
    (ref_all p ++ [mkHoldings (ref_bar rates (ref_tokens p)) (cash ch) (fee ch)
                     (cash ch + sum_values values)%Qc values])
    (ref_curve p).

(** Modelled from the spec: the operations of that portfolio (file
    portfolio.py is missing). *)
Definition reference : Portfolio Reference := {|
  __init__ := λ rates start_date initial_capital,
    let tokens := data.token_list rates in
    let fresh d :=
      mkHoldings d initial_capital 0 initial_capital ((λ s, (s, 0%Qc)) <$> tokens) in
    mkReference tokens [] (fresh None) [fresh (Some start_date)] [];
  update_holdings_from_fill := λ _ fill p, ref_pay fill p;
  update_fill := λ _ event p,
    match event with
    | Fill fill => ref_pay fill (ref_record fill p)
    | _ => p
    end;
  update_timeindex := λ rates _ p, ref_snapshot rates p;
  create_equity_curve_dataframe := λ p,
    mkReference (ref_tokens p) (ref_fills p) (ref_current p) (ref_all p)
      (equity_rows (ref_all p));
  current_holdings := ref_current;
  all_holdings := ref_all;
  equity_curve := ref_curve;
|}.

End interface.
End portfolio.

(** ** Concrete feeds

    The clock unit is the hour: 'H' is 1 and 'D' is 24.  The files hold one
    observation per hour and no NaN, so every bin of the interpolation grid
    holds exactly one value. *)

Module scenario.

Definition qz (z : Z) : Qc := Q2Qc (inject_Z z).

(** The mean of a bin, and linear interpolation on columns without NaN,
    which have nothing to fill in (the files here have no other). *)
#[export] Instance hourly_ops : Float64Ops Qc := {|
  bin_mean := λ vs,
    match vs with
    | [] => None
    | _ => Some (foldr Qcplus 0%Qc vs / qz (Z.of_nat (length vs)))%Qc
    end;
  interpolate_linear := λ col, col;
|}.

(** The clock of the files: 24 units to the day. *)
#[export] Instance hourly_calendar : Calendar := {| day := 24 |}.

(** A file with one observation at every hour from 0 to [hours]. *)
Definition hourly_file (hours : nat) : DataFrame Qc :=
  (λ k : nat, (Z.of_nat k, Some (qz (1000000 + Z.of_nat k)))) <$> seq 0 (S hours).

(** One token with three days of data, [HistoricCSVDataHandler(events,
    csv_dir, ["aave_usdc"])] with the default frequencies. *)
Definition usdc_files : gmap string (DataFrame Qc) :=
  {[ "aave_usdc" := hourly_file 72 ]}.

Definition usdc_handler : result data.HistoricCSVDataHandler :=
  data.__init__ [] usdc_files ["aave_usdc"] None None 1%positive 24%positive false.

(** Two tokens, the second with a file that has a header and no
    observation. *)
Definition header_only_files : gmap string (DataFrame Qc) :=
  {[ "aave_usdc" := hourly_file 24; "aave_dai" := [] ]}.

(** Two tokens, the second with one more day of data than the first. *)
Definition two_files : gmap string (DataFrame Qc) :=
  {[ "aave_usdc" := hourly_file 24; "aave_dai" := hourly_file 48 ]}.

Definition two_handler : result data.HistoricCSVDataHandler :=
  data.__init__ [] two_files ["aave_usdc"; "aave_dai"] None None 1%positive 24%positive false.

(** The frames of the two tokens after the cleaning steps, before the
    alignment. *)
Definition two_cleaned (t : string) : list Z :=
  match two_files !! t with
  | Some df =>
      match data.convert false
              (data.mkHandler [] [] ∅ ∅ true None None 1%positive 24%positive) df with
      | Returned frame => pandas.index frame
      | Raised _ => []
      end
  | None => []
  end.

(** The index a token is iterated on, once the feed is built. *)
Definition iterated_index (h : result (data.HistoricCSVDataHandler (V:=Qc)))
    (t : string) : option (list Z) :=
  match h with
  | Returned h =>
      match data.token_data h !! t with
      | Some (data.Iterrows rows) => Some (pandas.index rows)
      | _ => None
      end
  | Raised _ => None
  end.

(** The handler a construction returned. *)
Definition built (r : result (data.HistoricCSVDataHandler (V:=Qc)))
  : data.HistoricCSVDataHandler :=
  match r with
  | Returned h => h
  | Raised _ => data.mkHandler [] [] ∅ ∅ true None None 1%positive 1%positive
  end.

(** The one-token feed after [n] calls of [update_rates]; its four rows
    are revealed by the first four calls and the fifth finishes the backtest. *)
Definition usdc_feed (n : nat) : data.HistoricCSVDataHandler :=
  built (h ← usdc_handler; data.update_rates_times n h).

Definition usdc_revealed (n : nat) : list data.Rate :=
  default [] (data.latest_token_data (usdc_feed n) !! "aave_usdc").

(** The two-token feed as built, and the rows it iterates a token on. *)
Definition two_feed : data.HistoricCSVDataHandler := built two_handler.

Definition two_rows (t : string) : list (Row Qc) :=
  match data.token_data two_feed !! t with
  | Some (data.Iterrows rows) => rows
  | _ => []
  end.

(** The two tokens again, with bounds that leave the first token no
    label and the second token one: the first file ends at hour 24, the
    bounds begin at hour 48. *)
Definition late_feed : data.HistoricCSVDataHandler :=
  built (data.__init__ [] two_files ["aave_usdc"; "aave_dai"] (Some 48) (Some 100)
           1%positive 24%positive false).

(** The reference portfolio, over the feeds above. *)
#[export] Instance usdc_portfolio : portfolio.Portfolio (V:=Qc) portfolio.Reference :=
  portfolio.reference.

End scenario.

(** * Properties of the rate feed *)

Section feed.
Context {V : Type} `{!Float64Ops V} `{!Calendar}.
Implicit Types (h : data.HistoricCSVDataHandler (V:=V)) (t s : string).
Import data.

Lemma bind_Returned {A B : Type} (m : result A) (k : A → result B) (b : B) :
  (m ≫= k) = Returned b → ∃ a, m = Returned a ∧ k a = Returned b.
Proof. destruct m as [a|e]; [eauto | discriminate]. Qed.

(** **** One token of [update_rates] *)

Lemma update_rates_body_cases h t h' :
  update_rates_body h t = Returned h' →
  (token_data h !! t = Some (Iterrows []) ∧ h' = set_continue_backtest false h) ∨
  (∃ b rest rates,
     token_data h !! t = Some (Iterrows (b :: rest)) ∧
     latest_token_data h !! t = Some rates ∧
     h' = set_latest_token_data <[t := rates ++ [(t, b.1, b.2)]]>
            (set_token_data <[t := Iterrows rest]> h)).
Proof.
  unfold update_rates_body, next__get_new_rate.
  destruct (token_data h !! t) as [[df|[|b rest]]|] eqn:Htd; simpl; try discriminate.
  - intros [= <-]. by left.
  - destruct (latest_token_data h !! t) as [rates|] eqn:Hl; [|discriminate].
    intros [= <-]. right. eauto 10.
Qed.

Lemma update_rates_body_total h t :
  tracked h t → ∃ h', update_rates_body h t = Returned h'.
Proof.
  intros [[rows Hrows] [rates Hrates]].
  unfold update_rates_body, next__get_new_rate. rewrite Hrows.
  destruct rows as [|b rest]; simpl; [eauto|]. rewrite Hrates. eauto.
Qed.

Lemma update_rates_body_frame h t h' :
  update_rates_body h t = Returned h' →
  events h' = events h ∧ token_list h' = token_list h ∧
  (continue_backtest h = false → continue_backtest h' = false).
Proof.
  intros [(?&->)|(?&?&?&?&?&->)]%update_rates_body_cases; simpl; auto.
Qed.

Lemma update_rates_body_tracked h t h' s :
  update_rates_body h t = Returned h' → tracked h s → tracked h' s.
Proof.
  intros [(?&->)|(b&rest&rates&?&?&->)]%update_rates_body_cases
    [[rows Hrows] [l Hl]]; [split; simpl; eauto|].
  split; simpl.
  - destruct (decide (t = s)) as [->|]; simplify_map_eq; eauto.
  - destruct (decide (t = s)) as [->|]; simplify_map_eq; eauto.
Qed.

Lemma update_rates_body_in_time_order h t h' :
  update_rates_body h t = Returned h' → in_time_order h → in_time_order h'.
Proof.
  intros [(?&->)|(b&rest&rates&Htd&Hl&->)]%update_rates_body_cases Hord;
    [exact Hord|].
  intros s l. simpl. destruct (decide (t = s)) as [->|Hne].
  - rewrite lookup_insert_eq. intros [= <-].
    exists rest. rewrite lookup_insert_eq. split; [done|].
    destruct (Hord s rates Hl) as (rows & Hrows & Hsorted).
    rewrite Htd in Hrows. injection Hrows as <-.
    rewrite fmap_app, <- app_assoc. exact Hsorted.
  - rewrite lookup_insert_ne by done. intros Hs.
    destruct (Hord s l Hs) as (rows & Hrows & Hsorted).
    exists rows. by rewrite lookup_insert_ne.
Qed.

(** **** The loop of [update_rates] over the tokens *)

Lemma update_rates_loop_total ts h :
  Forall (tracked h) ts → ∃ h', for_each update_rates_body ts h = Returned h'.
Proof.
  revert h. induction ts as [|t ts IH]; intros h Hts; simpl; [eauto|].
  apply Forall_cons in Hts as [Ht Hts].
  destruct (update_rates_body_total h t Ht) as [h1 Hh1]. rewrite Hh1. simpl.
  apply IH. eapply Forall_impl; [exact Hts|].
  intros s. by apply (update_rates_body_tracked h t h1 s).
Qed.

Lemma update_rates_loop_inv (P : HistoricCSVDataHandler (V:=V) → Prop) ts h h' :
  (∀ h1 t h2, update_rates_body h1 t = Returned h2 → P h1 → P h2) →
  P h → for_each update_rates_body ts h = Returned h' → P h'.
Proof.
  intros Hstep. revert h. induction ts as [|t ts IH]; intros h HP; simpl.
  - by intros [= <-].
  - intros (h1 & Hh1 & Hrest)%bind_Returned. eauto.
Qed.

Lemma update_rates_Returned h h' :
  update_rates h = Returned h' →
  ∃ h1, for_each update_rates_body (token_list h) h = Returned h1 ∧
        h' = set_events (λ q, q ++ [MarketEvent]) h1.
Proof.
  unfold update_rates. intros (h1 & Hh1 & [= <-])%bind_Returned. eauto.
Qed.

Lemma update_rates_total h : ready h → ∃ h', update_rates h = Returned h'.
Proof.
  intros Hready. destruct (update_rates_loop_total _ h Hready) as [h1 Hh1].
  unfold update_rates. rewrite Hh1. simpl. eauto.
Qed.

Lemma update_rates_events h h' :
  update_rates h = Returned h' → events h' = events h ++ [MarketEvent].
Proof.
  intros (h1 & Hloop & ->)%update_rates_Returned. simpl. f_equal.
  revert Hloop. apply (update_rates_loop_inv (λ x, events x = events h)); [|done].
  intros h2 t h3 Hb <-. by destruct (update_rates_body_frame _ _ _ Hb) as [-> _].
Qed.

Lemma update_rates_token_list h h' :
  update_rates h = Returned h' → token_list h' = token_list h.
Proof.
  intros (h1 & Hloop & ->)%update_rates_Returned. simpl.
  revert Hloop. apply (update_rates_loop_inv (λ x, token_list x = token_list h)); [|done].
  intros h2 t h3 Hb <-. by destruct (update_rates_body_frame _ _ _ Hb) as (_ & -> & _).
Qed.

Lemma update_rates_tracked h h' s :
  update_rates h = Returned h' → tracked h s → tracked h' s.
Proof.
  intros (h1 & Hloop & ->)%update_rates_Returned Hs.
  cut (tracked h1 s); [by intros [??]|].
  revert Hloop. apply (update_rates_loop_inv (λ x, tracked x s)); [|done].
  intros h2 t h3. apply update_rates_body_tracked.
Qed.

Lemma update_rates_ready h h' : update_rates h = Returned h' → ready h → ready h'.
Proof.
  intros Hup Hready. unfold ready. rewrite (update_rates_token_list _ _ Hup).
  eapply Forall_impl; [exact Hready|]. intros s. by apply (update_rates_tracked h h' s).
Qed.

Lemma update_rates_sticky h h' :
  update_rates h = Returned h' →
  continue_backtest h = false → continue_backtest h' = false.
Proof.
  intros (h1 & Hloop & ->)%update_rates_Returned Hstop. simpl.
  revert Hloop. apply (update_rates_loop_inv (λ x, continue_backtest x = false)); [|done].
  intros h2 t h3 Hb. by destruct (update_rates_body_frame _ _ _ Hb) as (_ & _ & Hkeep).
Qed.

Lemma update_rates_in_time_order h h' :
  update_rates h = Returned h' → in_time_order h → in_time_order h'.
Proof.
  intros (h1 & Hloop & ->)%update_rates_Returned Hord.
  cut (in_time_order h1); [done|].
  revert Hloop. apply (update_rates_loop_inv in_time_order); [|done].
  intros h2 t h3. apply update_rates_body_in_time_order.
Qed.

(** **** Successive calls *)

Lemma update_rates_times_total n h :
  ready h → ∃ h', update_rates_times n h = Returned h' ∧ ready h'.
Proof.
  revert h. induction n as [|n IH]; intros h Hready; simpl; [eauto|].
  destruct (update_rates_total h Hready) as [h1 Hh1]. rewrite Hh1. simpl.
  apply IH. by eapply update_rates_ready.
Qed.

Lemma update_rates_times_inv (P : HistoricCSVDataHandler (V:=V) → Prop) n h h' :
  (∀ h1 h2, update_rates h1 = Returned h2 → P h1 → P h2) →
  P h → update_rates_times n h = Returned h' → P h'.
Proof.
  intros Hstep. revert h. induction n as [|n IH]; intros h HP; simpl.
  - by intros [= <-].
  - intros (h1 & Hh1 & Hrest)%bind_Returned. eauto.
Qed.

(** **** Slices of the revealed history *)

Lemma last_n_drop {A : Type} (n : nat) (l : list A) :
  last_n n l = drop (length l - n) l.
Proof. unfold last_n. by rewrite take_reverse, reverse_involutive. Qed.

Lemma slice_from_neg {A : Type} (N : Z) (l : list A) :
  1 ≤ N → slice_from (- N) l = last_n (Z.to_nat N) l.
Proof.
  intros HN. unfold slice_from. rewrite last_n_drop.
  rewrite bool_decide_eq_true_2 by lia. f_equal. lia.
Qed.

(** C2 (as the code has it): every call of [update_rates] on a feed that
    tracks its tokens returns and has put exactly one market event at the
    back of the Event Channel, whatever the number of tokens that advanced
    and whether or not the feed was already finished. *)
Theorem update_rates_puts_one_market_event h :
  ready h →
  ∃ h', update_rates h = Returned h' ∧ events h' = events h ++ [MarketEvent].
Proof.
  intros Hready. destruct (update_rates_total h Hready) as [h' Hh'].
  exists h'. split; [done|]. by apply update_rates_events.
Qed.

(** C4: once [continue_backtest] is false, it is false after any number of
    further calls of [update_rates], each of which returns. *)
Theorem continue_backtest_is_sticky h n :
  ready h → continue_backtest h = false →
  ∃ h', update_rates_times n h = Returned h' ∧ continue_backtest h' = false.
Proof.
  intros Hready Hstop.
  destruct (update_rates_times_total n h Hready) as (h' & Hh' & _).
  exists h'. split; [done|]. revert Hh'.
  apply (update_rates_times_inv (λ x, continue_backtest x = false)); [|done].
  intros h1 h2. apply update_rates_sticky.
Qed.

(** C7: for a registered token and [N >= 1], [get_latest_rates(token, N)]
    prints nothing and returns the last [N] observations of the token's
    revealed history, which is the whole history when it has at most [N]
    observations. *)
Theorem get_latest_rates_last_N h token rates N :
  latest_token_data h !! token = Some rates → 1 ≤ N →
  get_latest_rates h token N = ([], Returned (Some (last_n (Z.to_nat N) rates))) ∧
  (Z.of_nat (length rates) ≤ N → last_n (Z.to_nat N) rates = rates).
Proof.
  intros Hreg HN. split.
  - unfold get_latest_rates. rewrite Hreg. by rewrite slice_from_neg.
  - intros Hshort. rewrite last_n_drop.
    replace (length rates - Z.to_nat N)%nat with 0%nat by lia. done.
Qed.

(** C10: for a registered token, [get_latest_rates(token, 0)] returns the
    whole revealed history: [-0] is [0] and [rates_list[0:]] is the list. *)
Theorem get_latest_rates_zero_is_whole_history h token rates :
  latest_token_data h !! token = Some rates →
  get_latest_rates h token 0 = ([], Returned (Some rates)).
Proof.
  intros Hreg. unfold get_latest_rates, slice_from. rewrite Hreg. simpl.
  rewrite Z.min_l by lia. done.
Qed.

(** C3 (as the code has it): for a token that was never registered,
    [get_latest_rates] raises nothing: it prints that the token is not
    available and returns [None]; for a registered token it prints nothing
    and returns a list, also once the feed is exhausted. *)
Theorem get_latest_rates_unknown_token_returns_None h token N :
  latest_token_data h !! token = None →
  get_latest_rates h token N = ([not_available], Returned None) ∧
  ∀ token' N', is_Some (latest_token_data h !! token') →
    ∃ rates, get_latest_rates h token' N' = ([], Returned (Some rates)).
Proof.
  intros Hunknown. split.
  - unfold get_latest_rates. by rewrite Hunknown.
  - intros token' N' [rates Hreg]. unfold get_latest_rates. rewrite Hreg. eauto.
Qed.

(** **** The index of the cleaned frames *)

Lemma index_reindex_pad (df : DataFrame V) idx :
  pandas.index (pandas.reindex_pad df idx) = idx.
Proof.
  unfold pandas.index, pandas.reindex_pad.
  induction idx as [|x idx IH]; csimpl; [done|]. by f_equal.
Qed.

Lemma seq_increasing start n : StronglySorted lt (seq start n).
Proof.
  revert start. induction n as [|n IH]; intros start; simpl; constructor.
  - apply IH.
  - apply Forall_forall. intros k Hk%elem_of_seq. lia.
Qed.

Lemma date_range_increasing start stop freq :
  0 < freq → strictly_increasing (pandas.date_range start stop freq).
Proof.
  intros Hfreq. unfold strictly_increasing, pandas.date_range.
  apply (StronglySorted_fmap _ lt Z.lt); [|apply seq_increasing].
  intros j k Hjk. nia.
Qed.

Lemma resample_index_increasing freq idx :
  0 < freq → strictly_increasing (pandas.resample_index freq idx).
Proof.
  intros Hfreq. destruct idx as [|t ts]; simpl.
  - constructor.
  - by apply date_range_increasing.
Qed.

Lemma filter_index_increasing (P : Row V → Prop) `{!∀ r, Decision (P r)}
    (df : DataFrame V) :
  strictly_increasing (pandas.index df) →
  strictly_increasing (pandas.index (filter P df)).
Proof.
  unfold strictly_increasing, pandas.index.
  induction df as [|r df IH]; [done|].
  rewrite fmap_cons. intros [Hdf Hr]%StronglySorted_inv. rewrite filter_cons.
  assert (Forall (Z.lt r.1) (filter P df).*1) as Hall.
  { rewrite Forall_forall in Hr |- *. intros x (r' & -> & [_ Hr']%list_elem_of_filter)%list_elem_of_fmap.
    apply Hr, list_elem_of_fmap. eauto. }
  destruct (decide (P r)); [rewrite fmap_cons; constructor|]; auto.
Qed.

Lemma removeFlatRegions_keeps_the_first_row (r : Row V) (df : DataFrame V) :
  ∃ rest, _removeFlatRegions (r :: df) = r :: rest.
Proof.
  unfold _removeFlatRegions. simpl. rewrite filter_cons.
  destruct (decide _) as [|Hflat]; simpl; [eauto|].
  destruct Hflat. simpl. apply negb_true_iff, bool_decide_eq_false.
  intros [[x Hx] Hnone]. congruence.
Qed.

(** The conversion raises on the frame of a file without observations, and
    on no other. *)
Lemma convert_nil is_liquid_staking h :
  convert is_liquid_staking h [] = Raised TypeError.
Proof. by destruct is_liquid_staking. Qed.

Lemma convert_total is_liquid_staking h (df : DataFrame V) :
  df ≠ [] → ∃ frame, convert is_liquid_staking h df = Returned frame.
Proof.
  intros Hdf. destruct df as [|r df]; [done|]. unfold convert.
  destruct is_liquid_staking.
  - destruct (removeFlatRegions_keeps_the_first_row r df) as [rest ->]. simpl. eauto.
  - simpl. eauto.
Qed.

Lemma convert_Returned is_liquid_staking h (df frame : DataFrame V) :
  convert is_liquid_staking h df = Returned frame →
  df ≠ [] ∧ strictly_increasing (pandas.index frame).
Proof.
  intros Hconv. split.
  { intros ->. by rewrite convert_nil in Hconv. }
  revert Hconv. unfold convert.
  intros (df1 & _ & Hframe)%bind_Returned. injection Hframe as <-.
  unfold _adjust_liquidity_index_frequency.
  assert (strictly_increasing
            (pandas.index
               (pandas.dropna (pandas.resample_ffill (Z.pos (backtest_frequency h)) df1))))
    as Hclean.
  { apply filter_index_increasing. unfold pandas.resample_ffill.
    rewrite index_reindex_pad. by apply resample_index_increasing. }
  destruct (start_date_time h), (end_date_time h); try exact Hclean.
  by apply filter_index_increasing.
Qed.

Lemma convert_Raised is_liquid_staking h (df : DataFrame V) e :
  convert is_liquid_staking h df = Raised e → df = [] ∧ e = TypeError.
Proof.
  destruct df as [|r df].
  - rewrite convert_nil. by intros [= <-].
  - destruct (convert_total is_liquid_staking h (r :: df)) as [frame ->]; [done|].
    discriminate.
Qed.

(** **** Construction *)

Lemma open_convert_body_Returned files is_liquid_staking h c t h1 c1 :
  open_convert_body files is_liquid_staking (h, c) t = Returned (h1, c1) →
  ∃ df frame, files !! t = Some df ∧
    convert is_liquid_staking h df = Returned frame ∧
    h1 = set_latest_token_data <[t := []]> (set_token_data <[t := Frame frame]> h) ∧
    c1 = Some (default (pandas.index frame) c).
Proof.
  unfold open_convert_body, read_csv.
  destruct (files !! t) as [df|]; simpl; [|discriminate].
  destruct (convert is_liquid_staking h df) as [frame|e] eqn:Hconv; simpl; [|discriminate].
  intros [= <- <-]. exists df, frame. by destruct c.
Qed.

Lemma open_convert_loop files is_liquid_staking ts h c h' c' :
  for_each (open_convert_body files is_liquid_staking) ts (h, c) = Returned (h', c') →
  events h' = events h ∧ token_list h' = token_list h ∧
  continue_backtest h' = continue_backtest h ∧
  (∀ t, t ∈ ts →
     (∃ df, token_data h' !! t = Some (Frame df)) ∧ latest_token_data h' !! t = Some []) ∧
  (∀ t, t ∉ ts →
     token_data h' !! t = token_data h !! t ∧
     latest_token_data h' !! t = latest_token_data h !! t) ∧
  ((∀ x, c = Some x → strictly_increasing x) →
   ∀ x, c' = Some x → strictly_increasing x) ∧
  (c' = None → c = None ∧ ts = []).
Proof.
  revert h c. induction ts as [|t ts IH]; intros h c; simpl.
  - intros [= <- <-]. split_and!; auto.
    intros t Ht. by apply elem_of_nil in Ht.
  - intros ([h1 c1] & Hbody & Hrest)%bind_Returned.
    apply open_convert_body_Returned in Hbody as (df & frame & _ & Hconv & -> & ->).
    apply IH in Hrest as (He & Htl & Hc & Hin & Hout & Hsorted & Hnone). simpl in *.
    split_and!; try done.
    + intros s Hs. destruct (decide (s ∈ ts)) as [|Hnot]; [by apply Hin|].
      apply elem_of_cons in Hs as [->|]; [|done].
      destruct (Hout _ Hnot) as [-> ->]. rewrite !lookup_insert_eq. eauto.
    + intros s [Hne Hnot]%not_elem_of_cons.
      destruct (Hout _ Hnot) as [-> ->]. by rewrite !lookup_insert_ne.
    + intros Hc0. apply Hsorted. intros x [= <-].
      destruct c as [x|]; simpl; [by apply Hc0|].
      by apply convert_Returned in Hconv as [_ ?].
    + intros Hc'. by destruct (Hnone Hc').
Qed.

Lemma reindex_loop comb ts h h' :
  for_each (reindex_body comb) ts h = Returned h' →
  events h' = events h ∧ token_list h' = token_list h ∧
  continue_backtest h' = continue_backtest h ∧
  latest_token_data h' = latest_token_data h ∧
  (∀ t, t ∈ ts → ∃ df, token_data h' !! t = Some (Iterrows (pandas.reindex_pad df comb))) ∧
  (∀ t, t ∉ ts → token_data h' !! t = token_data h !! t).
Proof.
  revert h. induction ts as [|t ts IH]; intros h; simpl.
  - intros [= <-]. split_and!; try done.
    intros t Ht. by apply elem_of_nil in Ht.
  - intros (h1 & Hbody & Hrest)%bind_Returned.
    unfold reindex_body in Hbody.
    destruct (token_data h !! t) as [[df|rows]|] eqn:Htd; try discriminate.
    injection Hbody as <-.
    apply IH in Hrest as (He & Htl & Hc & Hl & Hin & Hout). simpl in *.
    split_and!; try done.
    + intros s Hs. destruct (decide (s ∈ ts)) as [|Hnot]; [by apply Hin|].
      apply elem_of_cons in Hs as [->|]; [|done].
      rewrite (Hout _ Hnot), lookup_insert_eq. eauto.
    + intros s [Hne Hnot]%not_elem_of_cons.
      by rewrite (Hout _ Hnot), lookup_insert_ne.
Qed.

Lemma init_Returned events0 files tl sd ed ifr bfr is_liquid_staking h :
  __init__ events0 files tl sd ed ifr bfr is_liquid_staking = Returned h →
  events h = events0 ∧ token_list h = tl ∧ continue_backtest h = true ∧
  ∃ comb, strictly_increasing comb ∧
    (∀ t, t ∈ tl →
       (∃ df, token_data h !! t = Some (Iterrows (pandas.reindex_pad df comb))) ∧
       latest_token_data h !! t = Some []) ∧
    (∀ t, t ∉ tl → latest_token_data h !! t = None).
Proof.
  unfold __init__, _open_convert_csv_files. simpl.
  intros ([h1 c1] & Hopen & Hre)%bind_Returned.
  apply open_convert_loop in Hopen as (He & Htl & Hc & Hin & Hout & Hsorted & Hnone).
  simpl in *. destruct c1 as [comb|].
  - apply reindex_loop in Hre as (He' & Htl' & Hc' & Hl' & Hin' & _).
    rewrite Htl in Hin'. rewrite He', Htl', Hc', Hl'.
    split_and!; try done. exists comb. split_and!.
    + by apply Hsorted.
    + intros t Ht. split; [by apply Hin'|by apply Hin].
    + intros t Ht. by destruct (Hout t Ht) as [_ ->].
  - injection Hre as <-. destruct (Hnone eq_refl) as [_ ->].
    split_and!; try done. exists []. split_and!.
    + constructor.
    + intros t Ht. by apply elem_of_nil in Ht.
    + intros t Ht. by destruct (Hout t Ht) as [_ ->].
Qed.

Lemma init_ready events0 files tl sd ed ifr bfr is_liquid_staking h :
  __init__ events0 files tl sd ed ifr bfr is_liquid_staking = Returned h → ready h.
Proof.
  intros (_ & Htl & _ & comb & _ & Hin & _)%init_Returned.
  unfold ready. rewrite Htl. apply Forall_forall. intros t Ht.
  destruct (Hin t Ht) as [[df Hdf] Hl]. split; eauto.
Qed.

Lemma init_in_time_order events0 files tl sd ed ifr bfr is_liquid_staking h :
  __init__ events0 files tl sd ed ifr bfr is_liquid_staking = Returned h →
  in_time_order h.
Proof.
  intros (_ & Htl & _ & comb & Hsorted & Hin & Hout)%init_Returned t rates Hrates.
  destruct (decide (t ∈ tl)) as [Ht|Ht].
  - destruct (Hin t Ht) as [[df Hdf] Hl]. exists (pandas.reindex_pad df comb).
    split; [done|]. rewrite Hl in Hrates. injection Hrates as <-. simpl.
    by rewrite index_reindex_pad.
  - rewrite (Hout t Ht) in Hrates. discriminate.
Qed.

(** C9: on a feed as its construction returns it, any number of calls of
    [update_rates] returns, and afterwards the observations revealed for
    every registered token carry strictly increasing timestamps. *)
Theorem revealed_timestamps_strictly_increasing
    events0 files tl sd ed ifr bfr is_liquid_staking h n :
  __init__ events0 files tl sd ed ifr bfr is_liquid_staking = Returned h →
  ∃ h', update_rates_times n h = Returned h' ∧
    ∀ t, t ∈ tl →
      ∃ rates, latest_token_data h' !! t = Some rates ∧
        strictly_increasing (rate_timestamp <$> rates).
Proof.
  intros Hinit.
  destruct (update_rates_times_total n h (init_ready _ _ _ _ _ _ _ _ _ Hinit))
    as (h' & Hh' & Hready).
  exists h'. split; [done|]. intros t Ht.
  assert (token_list h' = tl) as Htl.
  { revert Hh'. apply (update_rates_times_inv (λ x, token_list x = tl)).
    - intros h1 h2 Hup <-. by apply update_rates_token_list.
    - by apply init_Returned in Hinit as (_ & -> & _). }
  unfold ready in Hready. rewrite Htl, Forall_forall in Hready.
  destruct (Hready t Ht) as [_ [rates Hrates]]. exists rates. split; [done|].
  assert (in_time_order h') as Hord.
  { revert Hh'. apply (update_rates_times_inv in_time_order).
    - intros h1 h2. apply update_rates_in_time_order.
    - by eapply init_in_time_order. }
  destruct (Hord t rates Hrates) as (rows & _ & Hsorted).
  by apply StronglySorted_app_1_l in Hsorted.
Qed.

Lemma update_rates_times_ready n h h' :
  update_rates_times n h = Returned h' → ready h → ready h'.
Proof.
  intros Hn Hready. revert Hn. apply (update_rates_times_inv ready); [|done].
  intros h1 h2. apply update_rates_ready.
Qed.

End feed.

(** * What the scenarios say of the portfolio *)

Section naive_portfolio.
Context {V : Type} `{!Float64Ops V} `{!Calendar}.
Context {P : Type} `{!portfolio.Portfolio (V:=V) P}.
Implicit Types (rates : nat → data.HistoricCSVDataHandler (V:=V)) (hd : portfolio.Holdings).
Import portfolio.







End naive_portfolio.

Section reference_portfolio.
Import data portfolio.




End reference_portfolio.

(** * The scenarios, evaluated *)

Section scenarios.
Import data portfolio scenario.

Lemma usdc_handler_built : usdc_handler = Returned (usdc_feed 0).
Proof. vm_compute. reflexivity. Qed.

Lemma usdc_feed_ready n : ready (usdc_feed n).
Proof.
  destruct (update_rates_times_total n (usdc_feed 0)) as (h & Hh & Hready).
  { eapply init_ready. exact usdc_handler_built. }
  unfold usdc_feed. rewrite usdc_handler_built. simpl.
  change (ready (built (update_rates_times n (usdc_feed 0)))).
  by rewrite Hh.
Qed.

(** C2, the exception it makes: the one-token feed is built from a file of
    three days; its fifth call of [update_rates] finishes the backtest; the
    sixth call reveals nothing, and it still puts a market event on the
    Event Channel. *)
Lemma update_rates_enqueues_after_the_end :
  usdc_handler = Returned (usdc_feed 0) ∧
  update_rates_times 5 (usdc_feed 0) = Returned (usdc_feed 5) ∧
  continue_backtest (usdc_feed 4) = true ∧
  continue_backtest (usdc_feed 5) = false ∧
  update_rates (usdc_feed 5) = Returned (usdc_feed 6) ∧
  reveals_nothing (usdc_feed 5) (usdc_feed 6) ∧
  events (usdc_feed 6) = events (usdc_feed 5) ++ [MarketEvent] ∧
  events (usdc_feed 6) ≠ events (usdc_feed 5).
Proof. split_and!; [vm_compute; reflexivity..|vm_compute; discriminate]. Qed.

Lemma update_rates_puts_one_market_event_on_usdc :
  ready (usdc_feed 5) ∧
  ∃ h', update_rates (usdc_feed 5) = Returned h' ∧
        events h' = events (usdc_feed 5) ++ [MarketEvent].
Proof.
  split; [apply usdc_feed_ready|].
  apply (update_rates_puts_one_market_event (usdc_feed 5)), usdc_feed_ready.
Defined.

(** C3, on the one-token feed: asking for a token that was never
    registered raises nothing and returns [None]. *)
Lemma get_latest_rates_unknown_token_raises_nothing :
  latest_token_data (usdc_feed 0) !! "aave_dai" = None ∧
  get_latest_rates (usdc_feed 0) "aave_dai" 1 = ([not_available], Returned None) ∧
  ∀ e, (get_latest_rates (usdc_feed 0) "aave_dai" 1).2 ≠ Raised e.
Proof. split_and!; [vm_compute; reflexivity..|]. intros e. vm_compute. discriminate. Qed.

Lemma get_latest_rates_unknown_token_on_usdc :
  latest_token_data (usdc_feed 5) !! "aave_dai" = None ∧
  (get_latest_rates (usdc_feed 5) "aave_dai" 1 = ([not_available], Returned None) ∧
   ∀ token' N', is_Some (latest_token_data (usdc_feed 5) !! token') →
     ∃ rates, get_latest_rates (usdc_feed 5) token' N' = ([], Returned (Some rates))).
Proof.
  split; [vm_compute; reflexivity|].
  apply (get_latest_rates_unknown_token_returns_None (usdc_feed 5) "aave_dai" 1).
  vm_compute. reflexivity.
Defined.

Lemma continue_backtest_is_sticky_on_usdc :
  ready (usdc_feed 5) ∧ continue_backtest (usdc_feed 5) = false ∧
  ∃ h', update_rates_times 3 (usdc_feed 5) = Returned h' ∧ continue_backtest h' = false.
Proof.
  split; [apply usdc_feed_ready|]. split; [vm_compute; reflexivity|].
  apply (continue_backtest_is_sticky (usdc_feed 5) 3); [apply usdc_feed_ready|].
  vm_compute. reflexivity.
Defined.

Lemma get_latest_rates_last_N_on_usdc :
  latest_token_data (usdc_feed 3) !! "aave_usdc" = Some (usdc_revealed 3) ∧ 1 ≤ 2 ∧
  (get_latest_rates (usdc_feed 3) "aave_usdc" 2
     = ([], Returned (Some (last_n (Z.to_nat 2) (usdc_revealed 3)))) ∧
   (Z.of_nat (length (usdc_revealed 3)) ≤ 2 →
    last_n (Z.to_nat 2) (usdc_revealed 3) = usdc_revealed 3)).
Proof.
  split; [vm_compute; reflexivity|]. split; [lia|].
  apply (get_latest_rates_last_N (usdc_feed 3) "aave_usdc" (usdc_revealed 3) 2);
    [vm_compute; reflexivity|lia].
Defined.

Lemma get_latest_rates_zero_on_usdc :
  latest_token_data (usdc_feed 3) !! "aave_usdc" = Some (usdc_revealed 3) ∧
  get_latest_rates (usdc_feed 3) "aave_usdc" 0 = ([], Returned (Some (usdc_revealed 3))).
Proof.
  split; [vm_compute; reflexivity|].
  apply (get_latest_rates_zero_is_whole_history (usdc_feed 3) "aave_usdc").
  vm_compute. reflexivity.
Defined.

Lemma revealed_timestamps_on_usdc :
  data.__init__ [] usdc_files ["aave_usdc"] None None 1%positive 24%positive false = Returned (usdc_feed 0) ∧
  ∃ h', update_rates_times 3 (usdc_feed 0) = Returned h' ∧
    ∀ t, t ∈ ["aave_usdc"] →
      ∃ rates, latest_token_data h' !! t = Some rates ∧
        strictly_increasing (rate_timestamp <$> rates).
Proof.
  split; [exact usdc_handler_built|].
  apply (revealed_timestamps_strictly_increasing
           [] usdc_files ["aave_usdc"] None None 1%positive 24%positive false (usdc_feed 0) 3).
  exact usdc_handler_built.
Defined.

(** C6, on two tokens of which the second has one more day of data: the
    cleaned indices are [0; 24] and [0; 24; 48], their union has the three
    days, and both tokens are iterated on the first token's two days. *)
Theorem alignment_keeps_the_first_index :
  two_cleaned "aave_usdc" = [0; 24] ∧ two_cleaned "aave_dai" = [0; 24; 48] ∧
  pandas.index_union (two_cleaned "aave_usdc") (two_cleaned "aave_dai") = [0; 24; 48] ∧
  iterated_index two_handler "aave_usdc" = Some [0; 24] ∧
  iterated_index two_handler "aave_dai" = Some [0; 24].
Proof. split_and!; vm_compute; reflexivity. Qed.






End scenarios.

(** * More on the construction of the feed *)

Section construction.
Context {V : Type} `{!Float64Ops V} `{!Calendar}.
Implicit Types (h : data.HistoricCSVDataHandler (V:=V)) (t s : string).
Implicit Types (files : gmap string (DataFrame V)) (df : DataFrame V).
Import data.

Lemma for_each_cons_Returned {A S : Type} (body : S → A → result S) x xs st st' :
  for_each body (x :: xs) st = Returned st' →
  ∃ st1, body st x = Returned st1 ∧ for_each body xs st1 = Returned st'.
Proof. apply bind_Returned. Qed.

Lemma same_config_refl h : same_config h h.
Proof. by repeat split. Qed.

Lemma same_config_trans h1 h2 h3 :
  same_config h1 h2 → same_config h2 h3 → same_config h1 h3.
Proof.
  intros (?&?&?&?) (?&?&?&?). repeat split; congruence.
Qed.

Lemma convert_same_config is_liquid_staking h h' df :
  same_config h h' → convert is_liquid_staking h' df = convert is_liquid_staking h df.
Proof.
  intros (Hs & He & Hi & Hb).
  unfold convert, _interpolate_liquidity_index, _adjust_liquidity_index_frequency.
  by rewrite Hs, He, Hi, Hb.
Qed.

(** **** The first loop: reading and converting *)

Lemma open_convert_body_total files is_liquid_staking h c t :
  has_observations files t →
  ∃ h1 c1, open_convert_body files is_liquid_staking (h, c) t = Returned (h1, c1).
Proof.
  intros (df & Hdf & Hne). unfold open_convert_body, read_csv. rewrite Hdf. simpl.
  destruct (convert_total is_liquid_staking h df Hne) as [frame ->]. simpl. eauto.
Qed.

Lemma open_convert_body_missing files is_liquid_staking st t :
  files !! t = None →
  open_convert_body files is_liquid_staking st t = Raised FileNotFoundError.
Proof. intros Hnone. destruct st as [h c]. unfold open_convert_body, read_csv. by rewrite Hnone. Qed.

Lemma open_convert_body_header_only files is_liquid_staking st t :
  files !! t = Some [] →
  open_convert_body files is_liquid_staking st t = Raised TypeError.
Proof.
  intros Hnil. destruct st as [h c]. unfold open_convert_body, read_csv.
  rewrite Hnil. simpl. by rewrite convert_nil.
Qed.

Lemma open_convert_loop_Raised files is_liquid_staking pre t post st e :
  (∀ s, s ∈ pre → has_observations files s) →
  (∀ st', open_convert_body files is_liquid_staking st' t = Raised e) →
  for_each (open_convert_body files is_liquid_staking) (pre ++ t :: post) st = Raised e.
Proof.
  intros Hpre Hraised. revert st Hpre.
  induction pre as [|s pre IH]; intros [h c] Hpre.
  - change (open_convert_body files is_liquid_staking (h, c) t
              ≫= for_each (open_convert_body files is_liquid_staking) post = Raised e).
    by rewrite Hraised.
  - change (open_convert_body files is_liquid_staking (h, c) s
              ≫= for_each (open_convert_body files is_liquid_staking) (pre ++ t :: post)
            = Raised e).
    destruct (open_convert_body_total files is_liquid_staking h c s) as (h1 & c1 & ->);
      [apply Hpre; by left|].
    simpl. apply IH. intros s' Hs'. apply Hpre. by right.
Qed.

Lemma open_convert_loop_total files is_liquid_staking ts h c :
  (∀ t, t ∈ ts → has_observations files t) →
  ∃ h' c', for_each (open_convert_body files is_liquid_staking) ts (h, c)
             = Returned (h', c').
Proof.
  revert h c. induction ts as [|t ts IH]; intros h c Hfiles; [simpl; eauto|].
  change (∃ h' c', open_convert_body files is_liquid_staking (h, c) t
                     ≫= for_each (open_convert_body files is_liquid_staking) ts
                   = Returned (h', c')).
  destruct (open_convert_body_total files is_liquid_staking h c t) as (h1 & c1 & ->);
    [apply Hfiles; by left|].
  simpl. apply IH. intros s Hs. apply Hfiles. by right.
Qed.

Lemma open_convert_loop_frames files is_liquid_staking ts h c h' c' :
  for_each (open_convert_body files is_liquid_staking) ts (h, c) = Returned (h', c') →
  same_config h h' ∧
  ∀ t, t ∈ ts →
    ∃ df frame, files !! t = Some df ∧
      convert is_liquid_staking h df = Returned frame ∧
      token_data h' !! t = Some (Frame frame).
Proof.
  revert h c. induction ts as [|t ts IH]; intros h c; simpl.
  - intros [= <- <-]. split; [apply same_config_refl|].
    intros t Ht. by apply elem_of_nil in Ht.
  - intros ([h1 c1] & Hbody & Hrest)%bind_Returned.
    apply open_convert_body_Returned in Hbody as (df & frame & Hdf & Hconv & -> & ->).
    pose proof Hrest as Hout. apply open_convert_loop in Hout as (_ & _ & _ & _ & Hout & _).
    apply IH in Hrest as [Hcfg Hin].
    set (h1 := set_latest_token_data _ _) in *.
    assert (same_config h h1) as Hcfg1 by (by repeat split).
    split; [by eapply same_config_trans|].
    intros s Hs. destruct (decide (s ∈ ts)) as [Hin'|Hnot].
    + destruct (Hin s Hin') as (df' & frame' & Hdf' & Hconv' & Htd).
      exists df', frame'. split_and!; [done| |done].
      by rewrite <- (convert_same_config _ h h1).
    + apply elem_of_cons in Hs as [->|]; [|done]. exists df, frame.
      split_and!; [done..|].
      destruct (Hout t Hnot) as [-> _]. subst h1. simpl. by rewrite lookup_insert_eq.
Qed.

Lemma open_convert_loop_keeps_comb files is_liquid_staking ts h x h' c' :
  for_each (open_convert_body files is_liquid_staking) ts (h, Some x) = Returned (h', c') →
  c' = Some x.
Proof.
  revert h. induction ts as [|t ts IH]; intros h.
  - by intros [= <- <-].
  - intros ([h1 c1] & Hbody & Hrest)%for_each_cons_Returned.
    apply open_convert_body_Returned in Hbody as (df & frame & _ & _ & -> & ->).
    simpl in Hrest. by apply IH in Hrest.
Qed.

Lemma open_convert_loop_comb files is_liquid_staking h h' c' :
  for_each (open_convert_body files is_liquid_staking) (token_list h) (h, None)
    = Returned (h', c') →
  c' = match token_list h with
       | [] => None
       | _ => Some (first_index files is_liquid_staking h)
       end.
Proof.
  unfold first_index. destruct (token_list h) as [|t0 ts].
  - by intros [= <- <-].
  - intros ([h1 c1] & Hbody & Hrest)%for_each_cons_Returned.
    apply open_convert_body_Returned in Hbody as (df & frame & Hdf & Hconv & -> & ->).
    simpl in Hrest. apply open_convert_loop_keeps_comb in Hrest.
    unfold read_csv. rewrite Hdf. simpl. by rewrite Hconv.
Qed.

(** **** The second loop: reindexing *)

Lemma reindex_body_Returned comb h s h1 :
  reindex_body comb h s = Returned h1 →
  ∃ df, token_data h !! s = Some (Frame df) ∧
    h1 = set_token_data <[s := Iterrows (pandas.reindex_pad df comb)]> h.
Proof.
  unfold reindex_body.
  destruct (token_data h !! s) as [[df|rows]|]; try discriminate.
  intros [= <-]. eauto.
Qed.

Lemma reindex_body_Frame comb h s df :
  token_data h !! s = Some (Frame df) →
  reindex_body comb h s
    = Returned (set_token_data <[s := Iterrows (pandas.reindex_pad df comb)]> h).
Proof. intros Hdf. unfold reindex_body. by rewrite Hdf. Qed.

Lemma reindex_body_Iterrows comb h s rows :
  token_data h !! s = Some (Iterrows rows) →
  reindex_body comb h s = Raised AttributeError.
Proof. intros Hrows. unfold reindex_body. by rewrite Hrows. Qed.

Lemma reindex_loop_total comb ts h :
  NoDup ts → (∀ t, t ∈ ts → ∃ df, token_data h !! t = Some (Frame df)) →
  ∃ h', for_each (reindex_body comb) ts h = Returned h'.
Proof.
  revert h. induction ts as [|t ts IH]; intros h Hnodup Hframes; [by eexists|].
  apply NoDup_cons in Hnodup as [Hnot Hnodup].
  destruct (Hframes t) as [df Hdf]; [by left|].
  change (for_each (reindex_body comb) (t :: ts) h)
    with (reindex_body comb h t ≫= for_each (reindex_body comb) ts).
  rewrite (reindex_body_Frame comb h t df Hdf). simpl. apply IH; [done|].
  intros s Hs. simpl. rewrite lookup_insert_ne by (by intros ->).
  apply Hframes. by right.
Qed.

Lemma reindex_loop_Raised comb ts h :
  (∀ t, t ∈ ts → is_Some (token_data h !! t)) →
  ¬ NoDup ts ∨ (∃ t rows, t ∈ ts ∧ token_data h !! t = Some (Iterrows rows)) →
  for_each (reindex_body comb) ts h = Raised AttributeError.
Proof.
  revert h. induction ts as [|t ts IH]; intros h Hsome Hbad.
  - destruct Hbad as [Hdup|(t & rows & Ht & _)]; [|by apply elem_of_nil in Ht].
    destruct Hdup. constructor.
  - assert (is_Some (token_data h !! t)) as [td Htd] by (apply Hsome; by left).
    change (for_each (reindex_body comb) (t :: ts) h)
      with (reindex_body comb h t ≫= for_each (reindex_body comb) ts).
    destruct td as [df|rows];
      [rewrite (reindex_body_Frame comb h t df Htd)
      |by rewrite (reindex_body_Iterrows comb h t rows Htd)].
    simpl. apply IH.
    + intros s Hs. simpl. destruct (decide (t = s)) as [->|].
      * rewrite lookup_insert_eq. eauto.
      * rewrite lookup_insert_ne by done. apply Hsome. by right.
    + destruct (decide (t ∈ ts)) as [Hin|Hnot].
      { right. exists t, (pandas.reindex_pad df comb). split; [done|].
        simpl. by rewrite lookup_insert_eq. }
      destruct Hbad as [Hdup|(s & rows & Hs & Hrows)].
      * left. intros Hnodup. apply Hdup. by constructor.
      * right. exists s, rows. apply elem_of_cons in Hs as [->|Hs]; [congruence|].
        split; [done|]. simpl. rewrite lookup_insert_ne; [done|]. by intros ->.
Qed.

Lemma reindex_loop_frames comb ts h h' :
  for_each (reindex_body comb) ts h = Returned h' →
  NoDup ts ∧
  ∀ t, t ∈ ts →
    ∃ df, token_data h !! t = Some (Frame df) ∧
      token_data h' !! t = Some (Iterrows (pandas.reindex_pad df comb)).
Proof.
  revert h. induction ts as [|t ts IH]; intros h.
  - intros _. split; [constructor|]. intros t Ht. by apply elem_of_nil in Ht.
  - intros (h1 & Hbody & Hrest)%for_each_cons_Returned.
    apply reindex_body_Returned in Hbody as (df & Hdf & ->).
    pose proof Hrest as Hout. apply reindex_loop in Hout as (_ & _ & _ & _ & _ & Hout).
    apply IH in Hrest as [Hnodup Hin]. simpl in *.
    assert (t ∉ ts) as Hnot.
    { intros Ht. destruct (Hin t Ht) as (df' & Hdf' & _).
      by rewrite lookup_insert_eq in Hdf'. }
    split; [by constructor|].
    intros s [->|Hs]%elem_of_cons.
    + exists df. split; [done|]. by rewrite (Hout _ Hnot), lookup_insert_eq.
    + destruct (Hin s Hs) as (df' & Hdf' & Hmade). exists df'. split; [|done].
      rewrite lookup_insert_ne in Hdf'; [done|]. by intros ->.
Qed.

(** **** The constructor *)

Lemma init_unfold events0 files tl sd ed ifr bfr is_liquid_staking :
  __init__ events0 files tl sd ed ifr bfr is_liquid_staking
  = for_each (open_convert_body files is_liquid_staking) tl
      (blank events0 tl sd ed ifr bfr, None)
    ≫= λ '(h, comb_index),
         match comb_index with
         | None => Returned h
         | Some c => for_each (reindex_body c) (token_list h) h
         end.
Proof. reflexivity. Qed.

(** X1: the construction fails at the first token of the list whose file
    is missing or holds no observation, whatever comes after it: with
    FileNotFoundError for a missing file, and with TypeError for a file of a
    header and no observation, which has no datetime index to resample. *)
Theorem init_first_unusable_file events0 files pre t post sd ed ifr bfr is_liquid_staking :
  (∀ s, s ∈ pre → has_observations files s) →
  (files !! t = None →
   __init__ events0 files (pre ++ t :: post) sd ed ifr bfr is_liquid_staking
   = Raised FileNotFoundError) ∧
  (files !! t = Some [] →
   __init__ events0 files (pre ++ t :: post) sd ed ifr bfr is_liquid_staking
   = Raised TypeError).
Proof.
  intros Hpre. split; intros Ht; rewrite init_unfold.
  - rewrite (open_convert_loop_Raised _ _ _ _ _ _ FileNotFoundError); [done..|].
    intros st. by apply open_convert_body_missing.
  - rewrite (open_convert_loop_Raised _ _ _ _ _ _ TypeError); [done..|].
    intros st. by apply open_convert_body_header_only.
Qed.

(** X2: when every token has a file with observations, a token listed
    twice makes the construction fail with AttributeError: the second loop
    finds the row iterator that it stored itself where it expects a frame. *)
Theorem init_duplicate_token events0 files tl sd ed ifr bfr is_liquid_staking :
  (∀ t, t ∈ tl → has_observations files t) → ¬ NoDup tl →
  __init__ events0 files tl sd ed ifr bfr is_liquid_staking = Raised AttributeError.
Proof.
  intros Hfiles Hdup. rewrite init_unfold.
  destruct (open_convert_loop_total files is_liquid_staking tl
              (blank events0 tl sd ed ifr bfr) None Hfiles) as (h1 & c1 & Hloop).
  rewrite Hloop. simpl.
  pose proof (open_convert_loop _ _ _ _ _ _ _ Hloop) as (_ & Htl & _ & Hin & _ & _ & Hnone).
  destruct c1 as [comb|].
  - rewrite Htl. simpl. apply reindex_loop_Raised; [|by left].
    intros t Ht. destruct (Hin t Ht) as [[df ->] _]. eauto.
  - destruct (Hnone eq_refl) as [_ ->]. destruct Hdup. constructor.
Qed.

Lemma init_NoDup events0 files tl sd ed ifr bfr is_liquid_staking h :
  __init__ events0 files tl sd ed ifr bfr is_liquid_staking = Returned h → NoDup tl.
Proof.
  rewrite init_unfold. intros ([h1 c1] & Hloop & Hre)%bind_Returned.
  pose proof (open_convert_loop _ _ _ _ _ _ _ Hloop) as (_ & Htl & _ & _ & _ & _ & Hnone).
  destruct c1 as [comb|].
  - apply reindex_loop_frames in Hre as [Hnodup _]. by rewrite Htl in Hnodup.
  - destruct (Hnone eq_refl) as [_ ->]. constructor.
Qed.

(** X3: the construction returns a feed exactly when the tokens of the
    list are pairwise distinct and each of them has a file with at least
    one observation. *)
Theorem init_returns_iff events0 files tl sd ed ifr bfr is_liquid_staking :
  (∃ h, __init__ events0 files tl sd ed ifr bfr is_liquid_staking = Returned h) ↔
  NoDup tl ∧ ∀ t, t ∈ tl → has_observations files t.
Proof.
  split.
  - intros [h Hinit]. split; [by eapply init_NoDup|].
    rewrite init_unfold in Hinit.
    apply bind_Returned in Hinit as ([h1 c1] & Hloop & _).
    apply open_convert_loop_frames in Hloop as [_ Hframes].
    intros t Ht. destruct (Hframes t Ht) as (df & frame & Hdf & Hconv & _).
    exists df. split; [done|]. by apply convert_Returned in Hconv as [? _].
  - intros [Hnodup Hfiles]. rewrite init_unfold.
    destruct (open_convert_loop_total files is_liquid_staking tl
                (blank events0 tl sd ed ifr bfr) None Hfiles) as (h1 & c1 & Hloop).
    rewrite Hloop. simpl.
    pose proof (open_convert_loop _ _ _ _ _ _ _ Hloop) as (_ & Htl & _ & Hin & _).
    destruct c1 as [comb|]; [|eauto].
    rewrite Htl. simpl. apply reindex_loop_total; [done|].
    intros t Ht. by destruct (Hin t Ht) as [? _].
Qed.

Lemma init_token_data events0 files tl sd ed ifr bfr is_liquid_staking h t :
  __init__ events0 files tl sd ed ifr bfr is_liquid_staking = Returned h → t ∈ tl →
  ∃ df frame, files !! t = Some df ∧
    convert is_liquid_staking (blank events0 tl sd ed ifr bfr) df = Returned frame ∧
    token_data h !! t
    = Some (Iterrows
        (pandas.reindex_pad frame
           (first_index files is_liquid_staking (blank events0 tl sd ed ifr bfr)))).
Proof.
  rewrite init_unfold. intros ([h1 c1] & Hloop & Hre)%bind_Returned Ht.
  pose proof (open_convert_loop _ _ _ _ _ _ _ Hloop) as (_ & Htl & _).
  pose proof (open_convert_loop_frames _ _ _ _ _ _ _ Hloop) as [_ Hframes].
  apply (open_convert_loop_comb files is_liquid_staking (blank events0 tl sd ed ifr bfr))
    in Hloop.
  destruct (Hframes t Ht) as (df & frame & Hdf & Hconv & Htd).
  exists df, frame. split_and!; [done..|].
  destruct tl as [|t0 tl']; [by apply elem_of_nil in Ht|].
  change (c1 = Some (first_index files is_liquid_staking
                       (blank events0 (t0 :: tl') sd ed ifr bfr))) in Hloop.
  subst c1. cbv beta iota in Hre. rewrite Htl in Hre.
  change (token_list (blank events0 (t0 :: tl') sd ed ifr bfr)) with (t0 :: tl') in Hre.
  apply reindex_loop_frames in Hre as [_ Hmade].
  destruct (Hmade t Ht) as (df' & Hdf' & ->).
  rewrite Htd in Hdf'. by injection Hdf' as <-.
Qed.

(** X4: in the feed that the construction returns, every token is iterated
    on one and the same index, the index of the first token's converted
    frame, and the cell it gets at a label is the one its own converted
    frame has at the last label at or before that one (NaN for none). *)
Theorem init_aligns_on_first_index events0 files tl sd ed ifr bfr is_liquid_staking h t :
  __init__ events0 files tl sd ed ifr bfr is_liquid_staking = Returned h → t ∈ tl →
  ∃ df frame rows, files !! t = Some df ∧
    convert is_liquid_staking (blank events0 tl sd ed ifr bfr) df = Returned frame ∧
    token_data h !! t = Some (Iterrows rows) ∧
    pandas.index rows
      = first_index files is_liquid_staking (blank events0 tl sd ed ifr bfr) ∧
    ∀ label cell, (label, cell) ∈ rows → cell = pandas.pad_lookup frame label.
Proof.
  intros Hinit Ht.
  destruct (init_token_data _ _ _ _ _ _ _ _ _ _ Hinit Ht) as (df & frame & Hdf & Hconv & Htd).
  eexists df, frame, _. split_and!; [done..| |].
  - apply index_reindex_pad.
  - intros label cell (x & [= -> ->] & _)%list_elem_of_fmap. done.
Qed.

End construction.

(** * More on the streaming of the rates *)

Section streaming.
Context {V : Type} `{!Float64Ops V} `{!Calendar}.
Implicit Types (h : data.HistoricCSVDataHandler (V:=V)) (t s : string).
Implicit Types (rows : list (Row V)) (rates : list (data.Rate (V:=V))).
Import data.

(** **** One token of one call *)

Lemma update_rates_body_step h t h' :
  update_rates_body h t = Returned h' →
  (∀ s, s ≠ t →
     token_data h' !! s = token_data h !! s ∧
     latest_token_data h' !! s = latest_token_data h !! s) ∧
  ∃ rows, token_data h !! t = Some (Iterrows rows) ∧
    token_data h' !! t = Some (Iterrows (drop 1 rows)) ∧
    (∀ rates, latest_token_data h !! t = Some rates →
       latest_token_data h' !! t = Some (rates ++ (rate_of t <$> take 1 rows))) ∧
    (latest_token_data h !! t = None → latest_token_data h' !! t = None) ∧
    (continue_backtest h' = true ↔ continue_backtest h = true ∧ rows ≠ []).
Proof.
  intros [(Htd & ->)|(b & rest & rates0 & Htd & Hl & ->)]%update_rates_body_cases.
  - split; [done|]. exists []. simpl. split_and!; try done.
    + intros rates ->. by rewrite app_nil_r.
    + split; [done|]. by intros [_ ?].
  - split.
    + intros s Hs. simpl. by rewrite !lookup_insert_ne.
    + exists (b :: rest). simpl. rewrite !lookup_insert_eq. split_and!; try done.
      * intros rates Hrates. by pose proof (eq_trans (eq_sym Hl) Hrates) as [= ->].
      * intros Hnone. by pose proof (eq_trans (eq_sym Hl) Hnone).
      * split; [done|]. by intros [??].
Qed.

(** **** One call, on pairwise distinct tokens *)

Lemma update_rates_loop_step ts h h' :
  NoDup ts → for_each update_rates_body ts h = Returned h' →
  (∀ s, s ∉ ts →
     token_data h' !! s = token_data h !! s ∧
     latest_token_data h' !! s = latest_token_data h !! s) ∧
  (∀ t, t ∈ ts →
     ∃ rows, token_data h !! t = Some (Iterrows rows) ∧
       token_data h' !! t = Some (Iterrows (drop 1 rows)) ∧
       (∀ rates, latest_token_data h !! t = Some rates →
          latest_token_data h' !! t = Some (rates ++ (rate_of t <$> take 1 rows)))) ∧
  (continue_backtest h' = true ↔
   continue_backtest h = true ∧
   ∀ t rows, t ∈ ts → token_data h !! t = Some (Iterrows rows) → rows ≠ []).
Proof.
  revert h. induction ts as [|t ts IH]; intros h Hnodup.
  - intros [= <-]. split_and!; try done.
    + intros t Ht. by apply elem_of_nil in Ht.
    + split; [|by intros [? _]].
      intros Hc. split; [done|]. intros t rows Ht. by apply elem_of_nil in Ht.
  - apply NoDup_cons in Hnodup as [Hnot Hnodup].
    intros (h1 & Hbody & Hrest)%for_each_cons_Returned.
    apply update_rates_body_step in Hbody
      as (Hother & rows & Hrows & Hrows1 & Hrates1 & _ & Hcont1).
    apply IH in Hrest as (Hout & Hin & Hcont); [|done].
    split_and!.
    + intros s [Hne Hs]%not_elem_of_cons.
      destruct (Hout s Hs) as [-> ->]. by apply Hother.
    + intros s [->|Hs]%elem_of_cons.
      * exists rows. destruct (Hout t Hnot) as [-> ->]. by split_and!.
      * destruct (Hin s Hs) as (rows' & Hrows' & Hdrop & Hrates').
        assert (s ≠ t) as Hne by (by intros ->).
        destruct (Hother s Hne) as [Htd Hl].
        exists rows'. rewrite <- Htd, <- Hl. by split_and!.
    + split.
      * intros Hc. apply Hcont in Hc as [Hc1 Hall]. apply Hcont1 in Hc1 as [Hc Hne].
        split; [done|]. intros s rows' [->|Hs]%elem_of_cons Hs'.
        { rewrite Hrows in Hs'. by injection Hs' as <-. }
        apply (Hall s rows' Hs).
        assert (s ≠ t) as Hst by (by intros ->).
        by destruct (Hother s Hst) as [-> _].
      * intros [Hc Hall]. apply Hcont. split.
        { apply Hcont1. split; [done|]. apply (Hall t rows); [by left|done]. }
        intros s rows' Hs Hs'. apply (Hall s rows'); [by right|].
        assert (s ≠ t) as Hst by (by intros ->).
        by destruct (Hother s Hst) as [<- _].
Qed.

Lemma update_rates_step h h' :
  NoDup (token_list h) → update_rates h = Returned h' →
  (∀ t, t ∈ token_list h →
     ∃ rows, token_data h !! t = Some (Iterrows rows) ∧
       token_data h' !! t = Some (Iterrows (drop 1 rows)) ∧
       (∀ rates, latest_token_data h !! t = Some rates →
          latest_token_data h' !! t = Some (rates ++ (rate_of t <$> take 1 rows)))) ∧
  (continue_backtest h' = true ↔
   continue_backtest h = true ∧
   ∀ t rows, t ∈ token_list h → token_data h !! t = Some (Iterrows rows) → rows ≠ []).
Proof.
  intros Hnodup (h1 & Hloop & ->)%update_rates_Returned.
  apply update_rates_loop_step in Hloop as (_ & Hin & Hcont); [|done]. by split.
Qed.

(** **** Successive calls, on pairwise distinct tokens *)

(** On a feed that tracks pairwise distinct tokens, [n] calls of
    [update_rates] move the first [n] rows of every token's iterator, in
    order, to the end of its revealed history. *)
Lemma update_rates_times_lockstep h n :
  NoDup (token_list h) → ready h →
  ∃ h', update_rates_times n h = Returned h' ∧
    ∀ t rows rates, t ∈ token_list h →
      token_data h !! t = Some (Iterrows rows) →
      latest_token_data h !! t = Some rates →
      token_data h' !! t = Some (Iterrows (drop n rows)) ∧
      latest_token_data h' !! t = Some (rates ++ (rate_of t <$> take n rows)).
Proof.
  revert h. induction n as [|n IH]; intros h Hnodup Hready.
  - exists h. split; [done|]. intros t rows rates _ Hrows Hrates.
    by rewrite drop_0, take_0, app_nil_r.
  - destruct (update_rates_total h Hready) as [h1 Hh1].
    pose proof (update_rates_token_list _ _ Hh1) as Htl.
    pose proof (update_rates_ready _ _ Hh1 Hready) as Hready1.
    destruct (update_rates_step _ _ Hnodup Hh1) as [Hstep _].
    assert (NoDup (token_list h1)) as Hnodup1 by (by rewrite Htl).
    destruct (IH h1 Hnodup1 Hready1) as (h' & Hh' & Hall).
    exists h'. split; [simpl; by rewrite Hh1|].
    intros t rows rates Ht Hrows Hrates.
    destruct (Hstep t Ht) as (rows0 & Hrows0 & Hrows1 & Hrates1).
    rewrite Hrows in Hrows0. injection Hrows0 as <-.
    assert (t ∈ token_list h1) as Ht1 by (by rewrite Htl).
    destruct (Hall t (drop 1 rows) (rates ++ (rate_of t <$> take 1 rows))
                Ht1 Hrows1 (Hrates1 _ Hrates)) as [-> ->].
    split.
    + by rewrite drop_drop.
    + by rewrite <- app_assoc, <- fmap_app, (take_take_drop rows 1 n).
Qed.

(** On a feed that tracks pairwise distinct tokens, one at least, whose
    iterators all have [L] rows to come, call [L + 1] of [update_rates] is
    the one that finishes the backtest. *)
Lemma continue_backtest_until_exhausted h n L :
  NoDup (token_list h) → ready h → token_list h ≠ [] →
  (∀ t rows, t ∈ token_list h → token_data h !! t = Some (Iterrows rows) →
     length rows = L) →
  ∃ h', update_rates_times n h = Returned h' ∧
    (continue_backtest h' = true ↔ continue_backtest h = true ∧ (n ≤ L)%nat).
Proof.
  revert h L. induction n as [|n IH]; intros h L Hnodup Hready Hne Hlen.
  - exists h. split; [done|]. split; [|by intros [? _]]. intros ?. split; [done|lia].
  - destruct (update_rates_total h Hready) as [h1 Hh1].
    pose proof (update_rates_token_list _ _ Hh1) as Htl.
    pose proof (update_rates_ready _ _ Hh1 Hready) as Hready1.
    destruct (update_rates_step _ _ Hnodup Hh1) as [Hstep Hcont].
    assert (NoDup (token_list h1)) as Hnodup1 by (by rewrite Htl).
    assert (token_list h1 ≠ []) as Hne1 by (by rewrite Htl).
    assert (∀ t rows, t ∈ token_list h1 → token_data h1 !! t = Some (Iterrows rows) →
              length rows = (L - 1)%nat) as Hlen1.
    { intros t rows1. rewrite Htl. intros Ht Hrows1.
      destruct (Hstep t Ht) as (rows & Hrows & Hdrop & _).
      rewrite Hrows1 in Hdrop. injection Hdrop as ->.
      rewrite length_drop, (Hlen t rows Ht Hrows). done. }
    destruct (IH h1 (L - 1)%nat Hnodup1 Hready1 Hne1 Hlen1) as (h' & Hh' & Hcont').
    exists h'. split; [simpl; by rewrite Hh1|].
    rewrite Hcont', Hcont. split.
    + intros [[Hc Hall] Hn]. split; [done|].
      destruct (token_list h) as [|t0 ts] eqn:Htoks; [done|].
      unfold ready in Hready. rewrite Htoks in Hready.
      apply Forall_cons in Hready as [[[rows0 Hrows0] _] _].
      assert (t0 ∈ t0 :: ts) as Ht0 by (by left).
      pose proof (Hall t0 rows0 Ht0 Hrows0) as Hnil.
      pose proof (Hlen t0 rows0 Ht0 Hrows0) as HL.
      destruct rows0; [done|]. simpl in HL. lia.
    + intros [Hc Hn]. split_and!; [done| |lia].
      intros t rows Ht Hrows ->. specialize (Hlen t [] Ht Hrows). simpl in Hlen. lia.
Qed.

(** X7: on a feed that tracks its tokens, [n] calls of [update_rates]
    return, they have put [n] market events at the back of the Event
    Channel, and they have changed neither the token list nor the bounds and
    frequencies. *)
Theorem update_rates_times_events h n :
  ready h →
  ∃ h', update_rates_times n h = Returned h' ∧
    events h' = events h ++ replicate n MarketEvent ∧
    token_list h' = token_list h ∧ same_config h h'.
Proof.
  revert h. induction n as [|n IH]; intros h Hready.
  - exists h. split_and!; try done. by rewrite app_nil_r.
  - destruct (update_rates_total h Hready) as [h1 Hh1].
    destruct (IH h1 (update_rates_ready _ _ Hh1 Hready)) as (h' & Hh' & He & Htl & Hcfg).
    exists h'. split; [simpl; by rewrite Hh1|].
    rewrite He, Htl, (update_rates_events _ _ Hh1), (update_rates_token_list _ _ Hh1).
    split_and!; [by rewrite <- app_assoc|done|].
    eapply same_config_trans; [|exact Hcfg].
    apply update_rates_Returned in Hh1 as (h2 & Hloop & ->).
    revert Hloop. apply (update_rates_loop_inv (λ x, same_config h (set_events _ x))).
    + intros h3 t h4 [(_ & ->)|(?&?&?&_&_&->)]%update_rates_body_cases; done.
    + done.
Qed.

(** X8: the revealed histories are append-only and no call registers a
    token: after [n] calls of [update_rates] on a feed that tracks its
    tokens, every history starts with what it held before, and a token
    without a history still has none. *)
Theorem update_rates_times_append_only h n :
  ready h →
  ∃ h', update_rates_times n h = Returned h' ∧
    ∀ t, match latest_token_data h !! t with
         | Some rates => ∃ more, latest_token_data h' !! t = Some (rates ++ more)
         | None => latest_token_data h' !! t = None
         end.
Proof.
  intros Hready. destruct (update_rates_times_total n h Hready) as (h' & Hh' & _).
  exists h'. split; [done|]. intros t.
  set (P := λ x : HistoricCSVDataHandler (V:=V),
         match latest_token_data h !! t with
         | Some rates => ∃ more, latest_token_data x !! t = Some (rates ++ more)
         | None => latest_token_data x !! t = None
         end).
  revert Hh'. apply (update_rates_times_inv P).
  - intros h1 h2 (h3 & Hloop & ->)%update_rates_Returned HP.
    change (P h3). revert Hloop. apply (update_rates_loop_inv P); [|done].
    clear. intros h1 s h2 Hbody. unfold P.
    apply update_rates_body_step in Hbody as (Hother & rows & _ & _ & Hsome & Hnone & _).
    destruct (decide (t = s)) as [->|Hne].
    + destruct (latest_token_data h !! s) as [rates|].
      * intros [more Hmore]. rewrite (Hsome _ Hmore), <- app_assoc. eauto.
      * done.
    + destruct (Hother t Hne) as [_ ->]. done.
  - unfold P. destruct (latest_token_data h !! t) as [rates|]; [|done].
    exists []. by rewrite app_nil_r.
Qed.

End streaming.

(** * The feed from its construction on *)

Section built_feed.
Context {V : Type} `{!Float64Ops V} `{!Calendar}.
Implicit Types (h : data.HistoricCSVDataHandler (V:=V)) (t s : string).
Implicit Types (files : gmap string (DataFrame V)) (df : DataFrame V).
Import data.

Lemma init_streams events0 files tl sd ed ifr bfr is_liquid_staking h :
  __init__ events0 files tl sd ed ifr bfr is_liquid_staking = Returned h →
  NoDup (token_list h) ∧ ready h ∧ token_list h = tl ∧
  continue_backtest h = true ∧ ∀ t, t ∈ tl → latest_token_data h !! t = Some [].
Proof.
  intros Hinit.
  pose proof (init_NoDup _ _ _ _ _ _ _ _ _ Hinit) as Hnodup.
  pose proof (init_ready _ _ _ _ _ _ _ _ _ Hinit) as Hready.
  apply init_Returned in Hinit as (_ & Htl & Hc & comb & _ & Hin & _).
  rewrite Htl. split_and!; try done. intros t Ht. by destruct (Hin t Ht) as [_ ?].
Qed.

(** The rows on which the built feed iterates a token are as many as the
    labels of the index. *)
Lemma aligned_rows_length (frame : DataFrame V) (idx : list Z) :
  length (pandas.reindex_pad frame idx) = length idx.
Proof. unfold pandas.reindex_pad. by rewrite length_fmap. Qed.

(** X5: after [n] calls of [update_rates] on the feed that the construction
    returned, the revealed history of every token holds the first [n] rows
    of its aligned frame, in order, as tuples (all the rows, when there are
    fewer than [n]), and its iterator holds the rows that follow. *)
Theorem built_feed_reveals_in_lockstep
    events0 files tl sd ed ifr bfr is_liquid_staking h n :
  __init__ events0 files tl sd ed ifr bfr is_liquid_staking = Returned h →
  ∃ h', update_rates_times n h = Returned h' ∧
    ∀ t, t ∈ tl →
      ∃ df frame, files !! t = Some df ∧
        convert is_liquid_staking (blank events0 tl sd ed ifr bfr) df = Returned frame ∧
        let rows :=
          pandas.reindex_pad frame
            (first_index files is_liquid_staking (blank events0 tl sd ed ifr bfr)) in
        latest_token_data h' !! t = Some (rate_of t <$> take n rows) ∧
        token_data h' !! t = Some (Iterrows (drop n rows)).
Proof.
  intros Hinit.
  destruct (init_streams _ _ _ _ _ _ _ _ _ Hinit) as (Hnodup & Hready & Htl & _ & Hempty).
  destruct (update_rates_times_lockstep h n Hnodup Hready) as (h' & Hh' & Hall).
  exists h'. split; [done|]. intros t Ht.
  destruct (init_token_data _ _ _ _ _ _ _ _ _ _ Hinit Ht) as (df & frame & Hdf & Hconv & Htd).
  exists df, frame. split; [done|]. split; [done|]. simpl.
  rewrite <- Htl in Ht. by destruct (Hall t _ [] Ht Htd (Hempty t ltac:(by rewrite <- Htl))).
Qed.

(** X6: on the feed that the construction returned for a token list that
    is not empty, [continue_backtest] is true after [n] calls of
    [update_rates] exactly when [n] is at most the number of labels of the
    first token's converted frame: the call after the last row finishes the
    backtest. *)
Theorem built_feed_finishes_after_the_first_index
    events0 files tl sd ed ifr bfr is_liquid_staking h n :
  __init__ events0 files tl sd ed ifr bfr is_liquid_staking = Returned h → tl ≠ [] →
  ∃ h', update_rates_times n h = Returned h' ∧
    (continue_backtest h' = true ↔
     (n ≤ length (first_index files is_liquid_staking
                    (blank events0 tl sd ed ifr bfr)))%nat).
Proof.
  intros Hinit Hne.
  destruct (init_streams _ _ _ _ _ _ _ _ _ Hinit) as (Hnodup & Hready & Htl & Hc & _).
  destruct (continue_backtest_until_exhausted h n
              (length (first_index files is_liquid_staking
                         (blank events0 tl sd ed ifr bfr))) Hnodup Hready)
    as (h' & Hh' & Hcont).
  - by rewrite Htl.
  - intros t rows. rewrite Htl. intros Ht Hrows.
    destruct (init_token_data _ _ _ _ _ _ _ _ _ _ Hinit Ht) as (df & frame & _ & _ & Htd).
    rewrite Hrows in Htd. injection Htd as ->. apply aligned_rows_length.
  - exists h'. split; [done|]. rewrite Hcont. split; [by intros [_ ?]|done].
Qed.

Lemma update_rates_times_without_tokens h n :
  token_list h = [] →
  ∃ h', update_rates_times n h = Returned h' ∧
    continue_backtest h' = continue_backtest h ∧
    events h' = events h ++ replicate n MarketEvent.
Proof.
  revert h. induction n as [|n IH]; intros h Hnil.
  - exists h. split_and!; try done. by rewrite app_nil_r.
  - assert (update_rates h = Returned (set_events (λ q, q ++ [MarketEvent]) h)) as Hup.
    { unfold update_rates. by rewrite Hnil. }
    destruct (IH (set_events (λ q, q ++ [MarketEvent]) h) Hnil) as (h' & Hh' & Hc & He).
    exists h'. split; [simpl; by rewrite Hup|].
    split; [done|]. rewrite He. simpl. by rewrite <- app_assoc.
Qed.

(** X10: the feed built for an empty token list never finishes: the
    construction returns whatever the files are, and every call of
    [update_rates] returns, puts its market event on the Event Channel and
    leaves [continue_backtest] true. *)
Theorem built_feed_without_tokens_never_finishes
    events0 files sd ed ifr bfr is_liquid_staking n :
  ∃ h h', __init__ events0 files [] sd ed ifr bfr is_liquid_staking = Returned h ∧
    update_rates_times n h = Returned h' ∧
    continue_backtest h' = true ∧
    events h' = events0 ++ replicate n MarketEvent.
Proof.
  destruct (update_rates_times_without_tokens (blank events0 [] sd ed ifr bfr) n eq_refl)
    as (h' & Hh' & Hc & He).
  by exists (blank events0 [] sd ed ifr bfr), h'.
Qed.

(** **** Padding a frame onto its own index *)

Lemma pad_fold_later (t : Z) df (acc : option V) :
  Forall (λ r : Row V, t < r.1) df →
  fold_left (λ acc (r : Row V), if bool_decide (r.1 ≤ t) then r.2 else acc) df acc = acc.
Proof.
  revert acc. induction df as [|r df IH]; intros acc Hlater; [done|].
  apply Forall_cons in Hlater as [Hr Hlater]. simpl.
  rewrite bool_decide_eq_false_2 by lia. by apply IH.
Qed.

Lemma pad_fold_own (t : Z) (c : option V) df (acc : option V) :
  strictly_increasing (pandas.index df) → (t, c) ∈ df →
  fold_left (λ acc (r : Row V), if bool_decide (r.1 ≤ t) then r.2 else acc) df acc = c.
Proof.
  unfold strictly_increasing, pandas.index.
  revert acc. induction df as [|r df IH]; intros acc Hsorted Hin.
  - by apply elem_of_nil in Hin.
  - rewrite fmap_cons in Hsorted. apply StronglySorted_inv in Hsorted as [Hdf Hr].
    simpl. apply elem_of_cons in Hin as [<-|Hin].
    + simpl. rewrite bool_decide_eq_true_2 by lia. apply pad_fold_later.
      by rewrite Forall_fmap in Hr.
    + by apply IH.
Qed.

Lemma reindex_pad_own df :
  strictly_increasing (pandas.index df) → pandas.reindex_pad df (pandas.index df) = df.
Proof.
  intros Hsorted. unfold pandas.reindex_pad, pandas.index.
  rewrite <- list_fmap_compose. transitivity (id <$> df); [|apply list_fmap_id].
  apply Forall_fmap_ext, Forall_forall. intros [t c] Hin. simpl.
  f_equal. unfold pandas.pad_lookup. by apply pad_fold_own.
Qed.

Lemma convert_no_NaN is_liquid_staking h df (frame : DataFrame V) :
  convert is_liquid_staking h df = Returned frame →
  Forall (λ r : Row V, is_Some r.2) frame.
Proof.
  unfold convert. intros (df1 & _ & Hframe)%bind_Returned. injection Hframe as <-.
  unfold _adjust_liquidity_index_frequency.
  set (df2 := pandas.resample_ffill _ _).
  assert (Forall (λ r : Row V, is_Some r.2) (pandas.dropna df2)) as Hclean.
  { apply Forall_forall. by intros r [? _]%list_elem_of_filter. }
  destruct (start_date_time h), (end_date_time h); try exact Hclean.
  apply Forall_forall. intros r [_ Hr]%list_elem_of_filter.
  rewrite Forall_forall in Hclean. by apply Hclean.
Qed.

(** X9: the built feed iterates its first token on exactly that token's
    converted frame, no observation of which is NaN: the alignment changes
    nothing for the first token. *)
Theorem first_token_streams_its_own_frame
    events0 files t0 tl sd ed ifr bfr is_liquid_staking h :
  __init__ events0 files (t0 :: tl) sd ed ifr bfr is_liquid_staking = Returned h →
  ∃ df frame, files !! t0 = Some df ∧
    convert is_liquid_staking (blank events0 (t0 :: tl) sd ed ifr bfr) df
      = Returned frame ∧
    token_data h !! t0 = Some (Iterrows frame) ∧
    Forall (λ r : Row V, is_Some r.2) frame.
Proof.
  intros Hinit.
  destruct (init_token_data _ _ _ _ _ _ _ _ _ t0 Hinit)
    as (df & frame & Hdf & Hconv & Htd); [by left|].
  exists df, frame. split_and!; [done..| |by eapply convert_no_NaN].
  rewrite Htd. do 2 f_equal. unfold first_index, read_csv. simpl. rewrite Hdf. simpl.
  rewrite Hconv. apply reindex_pad_own. by apply convert_Returned in Hconv as [_ ?].
Qed.

(** X11: when the conversion leaves the frame of the first token no row
    (as when its observations all lie outside the bounds), the built feed never
    reveals anything, whatever the files of the other tokens hold: after
    any number of calls of [update_rates] every history is empty, and the
    first call has finished the backtest. *)
Theorem empty_first_frame_reveals_nothing
    events0 files t0 tl sd ed ifr bfr is_liquid_staking h n df0 :
  __init__ events0 files (t0 :: tl) sd ed ifr bfr is_liquid_staking = Returned h →
  files !! t0 = Some df0 →
  convert is_liquid_staking (blank events0 (t0 :: tl) sd ed ifr bfr) df0 = Returned [] →
  ∃ h', update_rates_times n h = Returned h' ∧
    (∀ t, t ∈ t0 :: tl → latest_token_data h' !! t = Some []) ∧
    (continue_backtest h' = true ↔ n = 0%nat).
Proof.
  intros Hinit Hdf0 Hempty.
  assert (first_index files is_liquid_staking
            (blank events0 (t0 :: tl) sd ed ifr bfr) = []) as Hfirst.
  { unfold first_index, read_csv. simpl. rewrite Hdf0. simpl. by rewrite Hempty. }
  destruct (init_streams _ _ _ _ _ _ _ _ _ Hinit) as (Hnodup & Hready & Htl & Hc & Hnone).
  destruct (update_rates_times_lockstep h n Hnodup Hready) as (h' & Hh' & Hall).
  exists h'. split; [done|]. split.
  - intros t Ht.
    destruct (init_token_data _ _ _ _ _ _ _ _ _ _ Hinit Ht) as (df & frame & _ & _ & Htd).
    rewrite Hfirst in Htd. rewrite <- Htl in Ht.
    destruct (Hall t _ [] Ht Htd (Hnone t ltac:(by rewrite <- Htl))) as [_ ->].
    unfold pandas.reindex_pad. by rewrite fmap_nil, take_nil.
  - destruct (continue_backtest_until_exhausted h n 0 Hnodup Hready) as (h2 & Hh2 & Hcont).
    + by rewrite Htl.
    + intros t rows. rewrite Htl. intros Ht Hrows.
      destruct (init_token_data _ _ _ _ _ _ _ _ _ _ Hinit Ht) as (df & frame & _ & _ & Htd).
      rewrite Hfirst, Hrows in Htd. by injection Htd as ->.
    + rewrite Hh' in Hh2. injection Hh2 as <-. rewrite Hcont.
      split; [lia|]. intros ->. split; [done|lia].
Qed.

End built_feed.

(** * Queries and cleaning steps *)

Section queries_and_cleaning.
Context {V : Type} `{!Float64Ops V} `{!Calendar}.
Implicit Types (h : data.HistoricCSVDataHandler (V:=V)) (t s : string).
Implicit Types (files : gmap string (DataFrame V)) (df : DataFrame V).
Implicit Types (col : list (option V)) (prev : option V).
Import data.

(** X12: for a registered token and a negative [N],
    [get_latest_rates(token, N)] returns the revealed history without its
    [-N] oldest observations (nothing, when it has no more than that). *)
Theorem get_latest_rates_negative_N h token (rates : list Rate) N :
  latest_token_data h !! token = Some rates → N < 0 →
  get_latest_rates h token N = ([], Returned (Some (drop (Z.to_nat (- N)) rates))).
Proof.
  intros Hreg HN. unfold get_latest_rates, slice_from. rewrite Hreg.
  rewrite bool_decide_eq_false_2 by lia. do 3 f_equal.
  destruct (decide (- N ≤ Z.of_nat (length rates))) as [Hle|Hgt].
  - by rewrite Z.min_l.
  - rewrite Z.min_r by lia. rewrite Nat2Z.id, drop_all, drop_ge; [done|lia].
Qed.

Lemma last_n_1_snoc {A : Type} (l : list A) (x : A) : last_n 1 (l ++ [x]) = [x].
Proof.
  rewrite last_n_drop, length_app. simpl.
  replace (length l + 1 - 1)%nat with (length l) by lia. apply drop_app_length.
Qed.

(** X13: on the built feed, when the common index has a label at position
    [n], call [n + 1] of [update_rates] makes the observation at that label
    the latest one of every token: [get_latest_rates(token, 1)] then returns
    it alone, with the cell that padding gives the token at that label. *)
Theorem latest_rate_after_calls
    events0 files tl sd ed ifr bfr is_liquid_staking h t (n : nat) label :
  __init__ events0 files tl sd ed ifr bfr is_liquid_staking = Returned h → t ∈ tl →
  first_index files is_liquid_staking (blank events0 tl sd ed ifr bfr) !! n = Some label →
  ∃ h' df frame, update_rates_times (S n) h = Returned h' ∧ files !! t = Some df ∧
    convert is_liquid_staking (blank events0 tl sd ed ifr bfr) df = Returned frame ∧
    get_latest_rates h' t 1
    = ([], Returned (Some [(t, label, pandas.pad_lookup frame label)])).
Proof.
  intros Hinit Ht Hlabel.
  destruct (init_streams _ _ _ _ _ _ _ _ _ Hinit) as (Hnodup & Hready & Htl & _ & Hempty).
  destruct (update_rates_times_lockstep h (S n) Hnodup Hready) as (h' & Hh' & Hall).
  destruct (init_token_data _ _ _ _ _ _ _ _ _ _ Hinit Ht) as (df & frame & Hdf & Hconv & Htd).
  exists h', df, frame. split_and!; [done..|].
  assert (t ∈ token_list h) as Ht' by (by rewrite Htl).
  destruct (Hall t _ [] Ht' Htd (Hempty t Ht)) as [_ Hlatest].
  unfold get_latest_rates. rewrite Hlatest. simpl app.
  rewrite slice_from_neg by lia. do 3 f_equal.
  set (idx := first_index _ _ _) in *.
  assert (pandas.reindex_pad frame idx !! n = Some (label, pandas.pad_lookup frame label))
    as Hrow.
  { unfold pandas.reindex_pad. by rewrite list_lookup_fmap, Hlabel. }
  rewrite (take_S_r _ _ _ Hrow), fmap_app. apply last_n_1_snoc.
Qed.

(** **** Padding copies observations of the past *)

Lemma pad_fold_Some (label : Z) df (acc : option V) (v : V) :
  fold_left (λ acc (r : Row V), if bool_decide (r.1 ≤ label) then r.2 else acc) df acc
    = Some v →
  acc = Some v ∨ ∃ label' : Z, (label', Some v) ∈ df ∧ label' ≤ label.
Proof.
  revert acc. induction df as [|[label1 c] df IH]; intros acc; simpl; [by left|].
  intros [Hacc|(label2 & Hin & Hle)]%IH.
  - case_bool_decide as Hle; [|by left]. simpl in *. subst c.
    right. exists label1. split; [by left|done].
  - right. exists label2. split; [by right|done].
Qed.

Lemma pad_lookup_Some df (label : Z) (v : V) :
  pandas.pad_lookup df label = Some v →
  ∃ label' : Z, (label', Some v) ∈ df ∧ label' ≤ label.
Proof. intros [?|?]%pad_fold_Some; [done|done]. Qed.

(** X17: the alignment never reveals the future of a token's converted
    frame: every float that the built feed holds for a token at a label is
    the float of that token's own converted frame at a label at or before. *)
Theorem built_feed_pads_from_the_past
    events0 files tl sd ed ifr bfr is_liquid_staking h t rows label (v : V) :
  __init__ events0 files tl sd ed ifr bfr is_liquid_staking = Returned h →
  token_data h !! t = Some (Iterrows rows) → (label, Some v) ∈ rows →
  ∃ df frame label', files !! t = Some df ∧
    convert is_liquid_staking (blank events0 tl sd ed ifr bfr) df = Returned frame ∧
    label' ≤ label ∧ (label', Some v) ∈ frame.
Proof.
  intros Hinit Hrows Hin.
  assert (t ∈ tl) as Ht.
  { destruct (decide (t ∈ tl)) as [|Hnot]; [done|]. exfalso.
    rewrite init_unfold in Hinit.
    apply bind_Returned in Hinit as ([h1 c1] & Hloop & Hre).
    apply open_convert_loop in Hloop as (_ & Htl & _ & _ & Hout & _).
    destruct (Hout t Hnot) as [Htd _]. simpl in Htd. rewrite lookup_empty in Htd.
    destruct c1 as [c|].
    - apply reindex_loop in Hre as (_ & _ & _ & _ & _ & Hout2).
      rewrite Htl in Hout2. simpl in Hout2. rewrite (Hout2 t Hnot), Htd in Hrows. done.
    - injection Hre as <-. by rewrite Htd in Hrows. }
  destruct (init_token_data _ _ _ _ _ _ _ _ _ _ Hinit Ht) as (df & frame & Hdf & Hconv & Htd).
  rewrite Hrows in Htd. injection Htd as ->.
  apply list_elem_of_fmap in Hin as (x & [= -> Hpad] & _).
  symmetry in Hpad. apply pad_lookup_Some in Hpad as (label' & Hin & Hle).
  by exists df, frame, label'.
Qed.

(** **** Flat-region removal *)

(** The rows kept when the float before the first row is [prev]. *)
Lemma removeFlat_cons prev (r : Row V) df :
  (filter (λ rb : (Row V) * bool, rb.2 = true)
     (zip (r :: df) (pandas.is_not_flat prev (pandas.column (r :: df))))).*1
  = if decide (is_Some r.2 ∧ r.2 = prev)
    then (filter (λ rb : (Row V) * bool, rb.2 = true)
            (zip df (pandas.is_not_flat r.2 (pandas.column df)))).*1
    else r :: (filter (λ rb : (Row V) * bool, rb.2 = true)
                 (zip df (pandas.is_not_flat r.2 (pandas.column df)))).*1.
Proof.
  unfold pandas.column. rewrite fmap_cons. simpl. rewrite filter_cons. simpl.
  destruct (decide (is_Some r.2 ∧ r.2 = prev)) as [Hflat|Hnot].
  - by rewrite bool_decide_eq_true_2.
  - by rewrite bool_decide_eq_false_2.
Qed.

Lemma no_flat_nil : no_flat (V:=V) [].
Proof. intros i x Hi. by rewrite lookup_nil in Hi. Qed.

Lemma no_flat_cons (c : option V) col :
  no_flat (c :: col) ↔ (∀ x, c = Some x → head col ≠ Some (Some x)) ∧ no_flat col.
Proof.
  unfold no_flat. split.
  - intros Hall. split.
    + intros x ->. rewrite head_lookup. by apply (Hall 0%nat x).
    + intros i x Hi. by apply (Hall (S i) x).
  - intros [Hhead Hall] [|i] x; simpl.
    + intros [= ->]. rewrite <- head_lookup. by apply Hhead.
    + apply Hall.
Qed.

Lemma removeFlat_no_flat prev df :
  let kept := (filter (λ rb : (Row V) * bool, rb.2 = true)
                 (zip df (pandas.is_not_flat prev (pandas.column df)))).*1 in
  no_flat (pandas.column kept) ∧
  (∀ x, prev = Some x → head (pandas.column kept) ≠ Some (Some x)) ∧
  kept `sublist_of` df.
Proof.
  revert prev. induction df as [|r df IH]; intros prev.
  - simpl. split_and!; [apply no_flat_nil|done|done].
  - cbv zeta. rewrite removeFlat_cons.
    destruct (IH r.2) as (Hno & Hhead & Hsub).
    destruct (decide (is_Some r.2 ∧ r.2 = prev)) as [[_ Hflat]|Hnot].
    + rewrite <- Hflat. split_and!; [done..|]. by apply sublist_cons.
    + split_and!.
      * unfold pandas.column. rewrite fmap_cons. apply no_flat_cons. split; [|done].
        intros x Hx. by apply Hhead.
      * intros x ->. unfold pandas.column. rewrite fmap_cons. simpl.
        intros [= Hr]. apply Hnot. rewrite Hr. eauto.
      * by apply sublist_skip.
Qed.

Lemma removeFlat_fixed prev df :
  no_flat (pandas.column df) →
  (∀ x, prev = Some x → head (pandas.column df) ≠ Some (Some x)) →
  (filter (λ rb : (Row V) * bool, rb.2 = true)
     (zip df (pandas.is_not_flat prev (pandas.column df)))).*1 = df.
Proof.
  revert prev. induction df as [|r df IH]; intros prev Hno Hhead; [done|].
  rewrite removeFlat_cons.
  unfold pandas.column in Hno, Hhead. rewrite fmap_cons in Hno, Hhead.
  apply no_flat_cons in Hno as [Hnext Hno].
  rewrite decide_False.
  - f_equal. by apply IH.
  - intros [[x Hx] Hprev]. apply (Hhead x); [congruence|]. simpl. by rewrite Hx.
Qed.

(** X14: [_removeFlatRegions] leaves no flat step: in its result no row
    repeats the float of the row before it; it only removes rows, it keeps
    their order, and it keeps the first row. *)
Theorem removeFlatRegions_leaves_no_flat_step df :
  no_flat (pandas.column (_removeFlatRegions df)) ∧
  _removeFlatRegions df `sublist_of` df ∧
  head (_removeFlatRegions df) = head df.
Proof.
  destruct (removeFlat_no_flat None df) as (Hno & _ & Hsub).
  split_and!; [done..|].
  destruct df as [|r df]; [done|].
  unfold _removeFlatRegions. rewrite removeFlat_cons, decide_False; [done|].
  by intros [[x Hx] Hnone]; rewrite Hx in Hnone.
Qed.

(** X15: [_removeFlatRegions] is idempotent: a second pass removes
    nothing. *)
Theorem removeFlatRegions_idempotent df :
  _removeFlatRegions (_removeFlatRegions df) = _removeFlatRegions df.
Proof.
  destruct (removeFlat_no_flat None df) as (Hno & _ & _).
  unfold _removeFlatRegions at 1. by apply removeFlat_fixed.
Qed.

End queries_and_cleaning.

(** * The further properties, on the concrete feeds *)

Section more_scenarios.
Import data scenario.

Lemma two_handler_built : two_handler = Returned two_feed.
Proof. vm_compute. reflexivity. Qed.

Lemma hourly_file_has_observations files t hours :
  files !! t = Some (hourly_file hours) → has_observations files t.
Proof. intros Hfile. exists (hourly_file hours). split; [done|]. discriminate. Qed.

Lemma init_first_unusable_file_on_header_only :
  (∀ s, s ∈ ["aave_usdc"] → has_observations header_only_files s) ∧
  header_only_files !! "aave_dai" = Some [] ∧
  ((header_only_files !! "aave_dai" = None →
    __init__ [] header_only_files (["aave_usdc"] ++ "aave_dai" :: []) None None
      1%positive 24%positive false = Raised FileNotFoundError) ∧
   (header_only_files !! "aave_dai" = Some [] →
    __init__ [] header_only_files (["aave_usdc"] ++ "aave_dai" :: []) None None
      1%positive 24%positive false = Raised TypeError)).
Proof.
  assert (∀ s, s ∈ ["aave_usdc"] → has_observations header_only_files s) as Hpre.
  { intros s [->|Hs%elem_of_nil]%elem_of_cons; [|done].
    apply (hourly_file_has_observations _ _ 24). vm_compute. reflexivity. }
  split; [exact Hpre|]. split; [vm_compute; reflexivity|].
  exact (init_first_unusable_file [] header_only_files ["aave_usdc"] "aave_dai" []
           None None 1%positive 24%positive false Hpre).
Defined.

Lemma init_duplicate_token_on_usdc :
  (∀ t, t ∈ ["aave_usdc"; "aave_usdc"] → has_observations usdc_files t) ∧
  ¬ NoDup ["aave_usdc"; "aave_usdc"] ∧
  __init__ [] usdc_files ["aave_usdc"; "aave_usdc"] None None 1%positive 24%positive false
    = Raised AttributeError.
Proof.
  assert (∀ t, t ∈ ["aave_usdc"; "aave_usdc"] → has_observations usdc_files t) as Hfiles.
  { intros t [->|[->|Ht%elem_of_nil]%elem_of_cons]%elem_of_cons; [..|done];
      apply (hourly_file_has_observations _ _ 72); vm_compute; reflexivity. }
  assert (¬ NoDup ["aave_usdc"; "aave_usdc"]) as Hdup.
  { intros [Hnot _]%NoDup_cons. apply Hnot. left. }
  split; [exact Hfiles|]. split; [exact Hdup|].
  exact (init_duplicate_token [] usdc_files ["aave_usdc"; "aave_usdc"] None None
           1%positive 24%positive false Hfiles Hdup).
Defined.

Lemma init_aligns_on_first_index_on_two :
  two_handler = Returned two_feed ∧ "aave_dai" ∈ ["aave_usdc"; "aave_dai"] ∧
  ∃ df frame rows, two_files !! "aave_dai" = Some df ∧
    convert false
      (blank [] ["aave_usdc"; "aave_dai"] None None 1%positive 24%positive) df
      = Returned frame ∧
    token_data two_feed !! "aave_dai" = Some (Iterrows rows) ∧
    pandas.index rows
      = first_index two_files false
          (blank [] ["aave_usdc"; "aave_dai"] None None 1%positive 24%positive) ∧
    ∀ label cell, (label, cell) ∈ rows → cell = pandas.pad_lookup frame label.
Proof.
  assert ("aave_dai" ∈ ["aave_usdc"; "aave_dai"]) as Hin by (right; left).
  split; [exact two_handler_built|]. split; [exact Hin|].
  exact (init_aligns_on_first_index [] two_files ["aave_usdc"; "aave_dai"] None None
           1%positive 24%positive false two_feed "aave_dai" two_handler_built Hin).
Defined.

Lemma built_feed_reveals_in_lockstep_on_two :
  two_handler = Returned two_feed ∧
  ∃ h', update_rates_times 1 two_feed = Returned h' ∧
    ∀ t, t ∈ ["aave_usdc"; "aave_dai"] →
      ∃ df frame, two_files !! t = Some df ∧
        convert false
          (blank [] ["aave_usdc"; "aave_dai"] None None 1%positive 24%positive) df
          = Returned frame ∧
        let rows :=
          pandas.reindex_pad frame
            (first_index two_files false
               (blank [] ["aave_usdc"; "aave_dai"] None None 1%positive 24%positive)) in
        latest_token_data h' !! t = Some (rate_of t <$> take 1 rows) ∧
        token_data h' !! t = Some (Iterrows (drop 1 rows)).
Proof.
  split; [exact two_handler_built|].
  exact (built_feed_reveals_in_lockstep [] two_files ["aave_usdc"; "aave_dai"] None None
           1%positive 24%positive false two_feed 1 two_handler_built).
Defined.

Lemma built_feed_finishes_after_the_first_index_on_two :
  two_handler = Returned two_feed ∧ ["aave_usdc"; "aave_dai"] ≠ [] ∧
  ∃ h', update_rates_times 3 two_feed = Returned h' ∧
    (continue_backtest h' = true ↔
     (3 ≤ length (first_index two_files false
                    (blank [] ["aave_usdc"; "aave_dai"] None None
                       1%positive 24%positive)))%nat).
Proof.
  assert (["aave_usdc"; "aave_dai"] ≠ []) as Hne by discriminate.
  split; [exact two_handler_built|]. split; [exact Hne|].
  exact (built_feed_finishes_after_the_first_index [] two_files ["aave_usdc"; "aave_dai"]
           None None 1%positive 24%positive false two_feed 3 two_handler_built Hne).
Defined.

Lemma update_rates_times_events_on_usdc :
  ready (usdc_feed 2) ∧
  ∃ h', update_rates_times 4 (usdc_feed 2) = Returned h' ∧
    events h' = events (usdc_feed 2) ++ replicate 4 MarketEvent ∧
    token_list h' = token_list (usdc_feed 2) ∧ same_config (usdc_feed 2) h'.
Proof.
  split; [apply usdc_feed_ready|].
  exact (update_rates_times_events (usdc_feed 2) 4 (usdc_feed_ready 2)).
Defined.

Lemma update_rates_times_append_only_on_usdc :
  ready (usdc_feed 2) ∧
  ∃ h', update_rates_times 4 (usdc_feed 2) = Returned h' ∧
    ∀ t, match latest_token_data (usdc_feed 2) !! t with
         | Some rates => ∃ more, latest_token_data h' !! t = Some (rates ++ more)
         | None => latest_token_data h' !! t = None
         end.
Proof.
  split; [apply usdc_feed_ready|].
  exact (update_rates_times_append_only (usdc_feed 2) 4 (usdc_feed_ready 2)).
Defined.

Lemma first_token_streams_its_own_frame_on_two :
  two_handler = Returned two_feed ∧
  ∃ df frame, two_files !! "aave_usdc" = Some df ∧
    convert false
      (blank [] ["aave_usdc"; "aave_dai"] None None 1%positive 24%positive) df
      = Returned frame ∧
    token_data two_feed !! "aave_usdc" = Some (Iterrows frame) ∧
    Forall (λ r : Row Qc, is_Some r.2) frame.
Proof.
  split; [exact two_handler_built|].
  exact (first_token_streams_its_own_frame [] two_files "aave_usdc" ["aave_dai"]
           None None 1%positive 24%positive false two_feed two_handler_built).
Defined.

Lemma late_handler_built :
  __init__ [] two_files ["aave_usdc"; "aave_dai"] (Some 48) (Some 100)
    1%positive 24%positive false = Returned late_feed.
Proof. vm_compute. reflexivity. Qed.

Lemma empty_first_frame_reveals_nothing_on_late :
  __init__ [] two_files ["aave_usdc"; "aave_dai"] (Some 48) (Some 100)
    1%positive 24%positive false = Returned late_feed ∧
  two_files !! "aave_usdc" = Some (hourly_file 24) ∧
  convert false
    (blank [] ["aave_usdc"; "aave_dai"] (Some 48) (Some 100) 1%positive 24%positive)
    (hourly_file 24) = Returned [] ∧
  ∃ h', update_rates_times 2 late_feed = Returned h' ∧
    (∀ t, t ∈ ["aave_usdc"; "aave_dai"] → latest_token_data h' !! t = Some []) ∧
    (continue_backtest h' = true ↔ 2%nat = 0%nat).
Proof.
  assert (two_files !! "aave_usdc" = Some (hourly_file 24)) as Hfile
    by (vm_compute; reflexivity).
  assert (convert false
            (blank [] ["aave_usdc"; "aave_dai"] (Some 48) (Some 100)
               1%positive 24%positive)
            (hourly_file 24) = Returned []) as Hempty by (vm_compute; reflexivity).
  split; [exact late_handler_built|]. split; [exact Hfile|]. split; [exact Hempty|].
  exact (empty_first_frame_reveals_nothing [] two_files "aave_usdc" ["aave_dai"]
           (Some 48) (Some 100) 1%positive 24%positive false late_feed 2
           (hourly_file 24) late_handler_built Hfile Hempty).
Defined.

Lemma get_latest_rates_negative_N_on_usdc :
  latest_token_data (usdc_feed 3) !! "aave_usdc" = Some (usdc_revealed 3) ∧ -1 < 0 ∧
  get_latest_rates (usdc_feed 3) "aave_usdc" (-1)
    = ([], Returned (Some (drop (Z.to_nat (- -1)) (usdc_revealed 3)))).
Proof.
  assert (latest_token_data (usdc_feed 3) !! "aave_usdc" = Some (usdc_revealed 3))
    as Hreg by (vm_compute; reflexivity).
  assert (-1 < 0) as Hneg by lia.
  split; [exact Hreg|]. split; [exact Hneg|].
  exact (get_latest_rates_negative_N (usdc_feed 3) "aave_usdc" (usdc_revealed 3) (-1)
           Hreg Hneg).
Defined.

Lemma latest_rate_after_calls_on_two :
  two_handler = Returned two_feed ∧ "aave_dai" ∈ ["aave_usdc"; "aave_dai"] ∧
  first_index two_files false
    (blank [] ["aave_usdc"; "aave_dai"] None None 1%positive 24%positive) !! 1%nat
    = Some 24 ∧
  ∃ h' df frame, update_rates_times 2 two_feed = Returned h' ∧
    two_files !! "aave_dai" = Some df ∧
    convert false
      (blank [] ["aave_usdc"; "aave_dai"] None None 1%positive 24%positive) df
      = Returned frame ∧
    get_latest_rates h' "aave_dai" 1
    = ([], Returned (Some [("aave_dai", 24, pandas.pad_lookup frame 24)])).
Proof.
  assert ("aave_dai" ∈ ["aave_usdc"; "aave_dai"]) as Hin by (right; left).
  assert (first_index two_files false
            (blank [] ["aave_usdc"; "aave_dai"] None None 1%positive 24%positive)
            !! 1%nat = Some 24) as Hlabel by (vm_compute; reflexivity).
  split; [exact two_handler_built|]. split; [exact Hin|]. split; [exact Hlabel|].
  exact (latest_rate_after_calls [] two_files ["aave_usdc"; "aave_dai"] None None
           1%positive 24%positive false two_feed "aave_dai" 1 24
           two_handler_built Hin Hlabel).
Defined.

Lemma built_feed_pads_from_the_past_on_two :
  two_handler = Returned two_feed ∧
  token_data two_feed !! "aave_dai" = Some (Iterrows (two_rows "aave_dai")) ∧
  (24, Some (qz 1000024)) ∈ two_rows "aave_dai" ∧
  ∃ df frame label', two_files !! "aave_dai" = Some df ∧
    convert false
      (blank [] ["aave_usdc"; "aave_dai"] None None 1%positive 24%positive) df
      = Returned frame ∧
    label' ≤ 24 ∧ (label', Some (qz 1000024)) ∈ frame.
Proof.
  assert (token_data two_feed !! "aave_dai" = Some (Iterrows (two_rows "aave_dai")))
    as Hrows by (vm_compute; reflexivity).
  assert ((24, Some (qz 1000024)) ∈ two_rows "aave_dai") as Hin.
  { apply list_elem_of_lookup. exists 1%nat. vm_compute. reflexivity. }
  split; [exact two_handler_built|]. split; [exact Hrows|]. split; [exact Hin|].
  exact (built_feed_pads_from_the_past [] two_files ["aave_usdc"; "aave_dai"] None None
           1%positive 24%positive false two_feed "aave_dai" (two_rows "aave_dai") 24
           (qz 1000024) two_handler_built Hrows Hin).
Defined.

End more_scenarios.
